(** * cuenca-python: the Transfer resource ([cuenca/resources/transfers.py])

    A shallow embedding of [Transfer.create], [Transfer._gen_idempotency_key],
    the [TransferRequest] model and the class-level configuration of
    [Transfer], together with the collaborators they call.  Python values are
    dynamically typed, so arguments are values of [pyval]; exceptions and the
    process-wide state (clock, HTTP session, allocated instances) are threaded
    through a small state-and-exception monad. *)

From Stdlib Require Import ZArith String Ascii List Lia.
From Stdlib Require Import Floats.SpecFloat.
From stdpp Require Import base option list gmap sets strings pretty.

Local Open Scope Z_scope.

(** ** Python values *)

(** The scalar values a caller can pass for a parameter, and the scalars of a
    JSON document.  [bool] is kept apart from [int] because the validators
    tell them apart. *)
Inductive pyval : Type :=
  | PyNone
  | PyBool (b : bool)
  | PyInt (z : Z)
  | PyFloat (f : spec_float)
  | PyStr (s : string).

(** Truth value testing, as used by [not x]. *)
Definition py_bool (v : pyval) : bool :=
  match v with
  | PyNone => false
  | PyBool b => b
  | PyInt z => negb (z =? 0)
  | PyFloat (S754_zero _) => false
  | PyFloat _ => true
  | PyStr s => negb (String.eqb s "")
  end.

Definition py_not (v : pyval) : bool := negb (py_bool v).

(** [str(z)] for an [int]: decimal digits, with a leading minus sign. *)
Definition int_str (z : Z) : string := pretty z.

(** ** Calendar dates *)

Record date : Type := Date { year : nat; month : nat; day : nat }.

Record datetime : Type := Datetime {
  dt_date : date;
  hour : nat; minute : nat; second : nat; microsecond : nat }.

(** [datetime.date()] *)
Definition datetime_date (d : datetime) : date := dt_date d.

(** [str.zfill]-style left padding with ['0'] up to [width] characters. *)
Fixpoint zeros (n : nat) : string :=
  match n with
  | O => ""
  | S n' => String "0" (zeros n')
  end.

Definition zfill (width : nat) (s : string) : string :=
  zeros (width - String.length s) +:+ s.

(** [str(date)] is [date.isoformat()]: ["%04d-%02d-%02d"]. *)
Definition date_str (d : date) : string :=
  zfill 4 (pretty (year d)) +:+ "-" +:+ zfill 2 (pretty (month d))
    +:+ "-" +:+ zfill 2 (pretty (day d)).

(** ** Field validators *)

Definition is_digit (c : ascii) : bool :=
  (48 <=? nat_of_ascii c)%nat && (nat_of_ascii c <=? 57)%nat.

Definition digit_value (c : ascii) : nat := (nat_of_ascii c - 48)%nat.

Definition CLABE_LENGTH : nat := 18.

(** The weights 3, 7, 1 repeated over the first seventeen digits. *)
Definition CLABE_WEIGHTS : list nat :=
  [3; 7; 1; 3; 7; 1; 3; 7; 1; 3; 7; 1; 3; 7; 1; 3; 7]%nat.

Definition weighted_sum (digits : list nat) : nat :=
  sum_list (zip_with (fun c w => (c * w) mod 10)%nat digits CLABE_WEIGHTS).

(** Modelled from the spec: the control digit "per the CLABE standard" of the
    [clabe] package, which is not part of the sources: every one of the first
    seventeen digits is multiplied by its weight modulo 10, the products are
    added modulo 10, and the control digit is the complement to 10 of that sum,
    modulo 10. *)
Definition compute_control_digit (clabe : list ascii) : nat :=
  ((10 - weighted_sum (digit_value <$> take 17 clabe) mod 10) mod 10)%nat.

(** Modelled from the spec: the [Clabe] field type of the [clabe] package
    (section 4.1): it accepts only strings of the fixed length 18, made of
    digits, whose last digit is the control digit; anything else is rejected. *)
Definition Clabe_validate (v : pyval) : option string :=
  match v with
  | PyStr s =>
      let cs := list_ascii_of_string s in
      if negb (length cs =? CLABE_LENGTH)%nat then None
      else if negb (forallb is_digit cs) then None
      else if negb (bool_decide (digit_value <$> last cs = Some (compute_control_digit cs)))
           then None
      else Some s
  | _ => None
  end.

(** Modelled from the spec: [StrictPositiveInt] of [cuenca/types.py], which is
    not part of the sources (section 4.1): only integers greater than 0; floats,
    strings, booleans, zero and negatives are rejected. *)
Definition StrictPositiveInt_validate (v : pyval) : option Z :=
  match v with
  | PyInt z => if 0 <? z then Some z else None
  | _ => None
  end.

(** Modelled from the spec: pydantic's [StrictStr] (section 4.1): only
    string-typed values, no coercion from numbers or booleans. *)
Definition StrictStr_validate (v : pyval) : option string :=
  match v with
  | PyStr s => Some s
  | _ => None
  end.


(** ** The specification's side

    The properties the validators and the key generator are compared with,
    written after the specification's words. *)

(** "18 digits long, numeric-only, and carry a valid checksum": the weighted
    sum of the first seventeen digits plus the last digit is a multiple of
    10. *)
Definition valid_clabe (s : string) : Prop :=
  let cs := list_ascii_of_string s in
  length cs = 18%nat
  /\ Forall (fun c => is_digit c = true) cs
  /\ exists c, cs !! 17%nat = Some c
       /\ ((weighted_sum (digit_value <$> take 17 cs) + digit_value c) mod 10 = 0)%nat.

(** ['{current_UTC_date}:{account_number}:{amount}'] *)
Definition expected_key (today : date) (account_number amount : string) : string :=
  date_str today +:+ ":" +:+ account_number +:+ ":" +:+ amount.

(** ** What the sources leave to the Python runtime and to pydantic *)

(** [transfers.py] formats values in an f-string and declares fields with the
    plain pydantic types [str], [int], [dt.datetime] and with [Network] of
    [cuenca/types.py].  None of these is defined in the sources, so they are
    taken as parameters; the only facts used are that the non-strict [str] and
    [int] validators return a value that already has the right type. *)
Class Runtime : Type := {
  float_str : spec_float -> string;
  str_validator : pyval -> option string;
  str_validator_str : forall s, str_validator (PyStr s) = Some s;
  int_validator : pyval -> option Z;
  int_validator_int : forall z, int_validator (PyInt z) = Some z;
  datetime_validator : pyval -> option datetime;
  Network : Type;
  Network_validator : pyval -> option Network }.

(** Modelled from the spec: [Status] of [cuenca/types.py] (section 3:
    "created, pending, submitted, succeeded, failed"). *)
Inductive Status : Type := created | pending | submitted | succeeded | failed.

Definition Status_value (s : Status) : string :=
  match s with
  | created => "created"
  | pending => "pending"
  | submitted => "submitted"
  | succeeded => "succeeded"
  | failed => "failed"
  end.

Definition Status_validator (v : pyval) : option Status :=
  match v with
  | PyStr s =>
      snd <$> list_find (fun st => s = Status_value st)
                        [created; pending; submitted; succeeded; failed]
  | _ => None
  end.

(** ** Exceptions, requests and responses *)

Inductive Exception : Type :=
  | ValidationError (fields : list string)
  | TypeError
  | ConfigurationError (unaccepted : gset string)
  | HTTPError (status_code : nat).

Inductive Result (A : Type) : Type :=
  | Ok (a : A)
  | Raise (e : Exception).
Arguments Ok {A} a.
Arguments Raise {A} e.

(** A JSON object with scalar members, as a Python [dict]. *)
Abbreviation dict := (gmap string pyval).

Inductive Request : Type :=
  | GET (path : string) (params : dict)
  | POST (path : string) (json : dict).

(** The parsed JSON a request returns: one resource, or one page of a list. *)
Inductive Response : Type :=
  | JsonObject (o : dict)
  | JsonPage (items : list dict) (next_page : option string).

(** [class Transfer(Creatable, Listable, Retrievable)] *)
Inductive Capability : Type := Creatable | Listable | Retrievable.

Inductive Operation : Type := op_create | op_list | op_retrieve.

Definition provides (c : Capability) (o : Operation) : bool :=
  match c, o with
  | Creatable, op_create | Listable, op_list | Retrievable, op_retrieve => true
  | _, _ => false
  end.

(** The filter keys that are not among the allowed query parameters. *)
Definition unaccepted (allowed : gset string) (filters : dict) : gset string :=
  dom filters ∖ allowed.

(** The names of the fields whose validator failed. *)
Definition failing {A} (name : string) (r : option A) : list string :=
  match r with
  | Some _ => []
  | None => [name]
  end.

Section Cuenca.
Context {RT : Runtime}.

(** [str(v)], which is what an f-string replacement field [{v}] produces. *)
Definition py_str (v : pyval) : string :=
  match v with
  | PyNone => "None"
  | PyBool true => "True"
  | PyBool false => "False"
  | PyInt z => int_str z
  | PyFloat f => float_str f
  | PyStr s => s
  end.

(** The fields of the [Transfer] dataclass (lines 24 to 33). *)
Record Transfer : Type := {
  id : string;
  created_at : datetime;
  updated_at : datetime;
  account_number : string;
  amount : Z;
  descriptor : string;
  idempotency_key : string;
  status : Status;
  network : Network;
  tracking_key : option string }.

Definition Transfer_bases : list Capability := [Creatable; Listable; Retrievable].

Definition supports (o : Operation) : bool :=
  existsb (fun c => provides c o) Transfer_bases.

Definition _endpoint : string := "/transfers".

Definition _query_params : gset string :=
  {[ "account_number"; "idempotency_key"; "status" ]}.

Definition Transfer_required : gset string :=
  {[ "id"; "created_at"; "updated_at"; "account_number"; "amount";
     "descriptor"; "idempotency_key"; "status"; "network" ]}.

Definition Optional {A} (validator : pyval -> option A) (v : pyval) : option (option A) :=
  match v with
  | PyNone => Some None
  | _ => Some <$> validator v
  end.

(** [Transfer] called with the keywords [kw]: the generated [__init__] takes
    exactly the declared fields as keywords ([tracking_key] defaults to
    [None]) and every field is validated against its annotation. *)
Definition Transfer_init (kw : dict) : Result Transfer :=
  if negb (bool_decide (dom kw ⊆ Transfer_required ∪ {[ "tracking_key" ]}
                        ∧ Transfer_required ⊆ dom kw))
  then Raise TypeError
  else
    let arg name := default PyNone (kw !! name) in
    let r_id := str_validator (arg "id") in
    let r_created_at := datetime_validator (arg "created_at") in
    let r_updated_at := datetime_validator (arg "updated_at") in
    let r_account_number := str_validator (arg "account_number") in
    let r_amount := int_validator (arg "amount") in
    let r_descriptor := str_validator (arg "descriptor") in
    let r_idempotency_key := str_validator (arg "idempotency_key") in
    let r_status := Status_validator (arg "status") in
    let r_network := Network_validator (arg "network") in
    let r_tracking_key := Optional str_validator (arg "tracking_key") in
    match r_id, r_created_at, r_updated_at, r_account_number, r_amount,
          r_descriptor, r_idempotency_key, r_status, r_network, r_tracking_key with
    | Some i, Some c, Some u, Some an, Some am, Some d, Some k, Some s, Some n, Some t =>
        Ok {| id := i; created_at := c; updated_at := u; account_number := an;
              amount := am; descriptor := d; idempotency_key := k; status := s;
              network := n; tracking_key := t |}
    | _, _, _, _, _, _, _, _, _, _ =>
        Raise (ValidationError
          (failing "id" r_id ++ failing "created_at" r_created_at
           ++ failing "updated_at" r_updated_at
           ++ failing "account_number" r_account_number ++ failing "amount" r_amount
           ++ failing "descriptor" r_descriptor
           ++ failing "idempotency_key" r_idempotency_key
           ++ failing "status" r_status ++ failing "network" r_network
           ++ failing "tracking_key" r_tracking_key))
    end.

(** ** The process: clock, HTTP session, instances *)

(** A reference to an instance: its position in the store. *)
Definition ref : Type := nat.

Record World : Type := {
  utcnow : datetime;
  respond : Request -> Result Response;
  sent : list Request;
  instances : list Transfer }.

Definition M (A : Type) : Type := World -> Result A * World.

#[global] Instance M_ret : MRet M := fun A a w => (Ok a, w).

#[global] Instance M_bind : MBind M := fun A B f m w =>
  match m w with
  | (Ok a, w') => f a w'
  | (Raise e, w') => (Raise e, w')
  end.

Definition raise {A} (e : Exception) : M A := fun w => (Raise e, w).

Definition lift {A} (r : Result A) : M A := fun w => (r, w).

(** [dt.datetime.utcnow()] *)
Definition datetime_utcnow : M datetime := fun w => (Ok (utcnow w), w).

Definition record_request (rq : Request) (w : World) : World :=
  {| utcnow := utcnow w; respond := respond w; sent := sent w ++ [rq];
     instances := instances w |}.

(** The session performs the request and returns the parsed JSON; a non-2xx
    answer is raised. *)
Definition session_request (rq : Request) : M Response := fun w =>
  (respond w rq, record_request rq w).

Definition session_post (path : string) (json : dict) : M Response :=
  session_request (POST path json).

Definition session_get (path : string) (params : dict) : M Response :=
  session_request (GET path params).

Definition store (t : Transfer) (w : World) : World :=
  {| utcnow := utcnow w; respond := respond w; sent := sent w;
     instances := instances w ++ [t] |}.

(** Constructing an instance allocates a new object. *)
Definition new (t : Transfer) : M ref := fun w =>
  (Ok (length (instances w)), store t w).

(** [cls] called with the members of the response as keywords. *)
Definition construct (resp : Response) : M ref :=
  match resp with
  | JsonObject o => t ← lift (Transfer_init o); new t
  | JsonPage _ _ => raise TypeError
  end.

(** ** Resource capabilities ([cuenca/resources/base.py]) *)

(** Modelled from the spec: [Creatable.create] of [cuenca/resources/base.py]
    (section 4.2): a POST of the payload to the resource's endpoint; on
    success the JSON response is deserialized into the resource type and
    returned; on failure the server's error is surfaced. *)
Definition Creatable_create (endpoint : string) (data : dict) : M ref :=
  resp ← session_post endpoint data;
  construct resp.

(** Modelled from the spec: [Retrievable.retrieve] of
    [cuenca/resources/base.py] (section 4.2): a GET to [{endpoint}/{id}] that
    returns one resource instance. *)
Definition Retrievable_retrieve (endpoint : string) (id : string) : M ref :=
  resp ← session_get (endpoint +:+ "/" +:+ id) ∅;
  construct resp.

(** The lazy sequence a listing produces: the instances already built from the
    last page, and the request for the next page, if any. *)
Record Listing : Type := {
  buffered : list ref;
  next_request : option Request }.

(** Modelled from the spec: [Listable.list] of [cuenca/resources/base.py]
    (section 4.2): every filter key must be in the resource's allowed
    query-parameter set, a configuration error otherwise; then a GET with the
    filters as query parameters, each page being fetched only when the caller
    consumes past the buffered items. *)
Definition Listable_list (endpoint : string) (query_params : gset string)
    (filters : dict) : M Listing :=
  if bool_decide (unaccepted query_params filters = ∅)
  then mret {| buffered := []; next_request := Some (GET endpoint filters) |}
  else raise (ConfigurationError (unaccepted query_params filters)).

Fixpoint construct_all (items : list dict) : M (list ref) :=
  match items with
  | [] => mret []
  | o :: items' =>
      r ← construct (JsonObject o);
      rs ← construct_all items';
      mret (r :: rs)
  end.

(** One step of consuming a listing: the next buffered instance, or the fetch
    of the next page, or the end of the sequence. *)
Inductive Step : Type :=
  | Item (r : ref) (rest : Listing)
  | Fetched (rest : Listing)
  | Exhausted.

Definition Listing_next (l : Listing) : M Step :=
  match buffered l, next_request l with
  | r :: rs, _ => mret (Item r {| buffered := rs; next_request := next_request l |})
  | [], None => mret Exhausted
  | [], Some rq =>
      resp ← session_request rq;
      match resp with
      | JsonPage items next_page =>
          rs ← construct_all items;
          mret (Fetched {| buffered := rs;
                           next_request := (fun p => GET p ∅) <$> next_page |})
      | JsonObject _ => raise TypeError
      end
  end.

(** ** [TransferRequest] (lines 12 to 16) *)

Record TransferRequest : Type := {
  req_account_number : string;
  req_amount : Z;
  req_descriptor : string;
  req_idempotency_key : string }.

(** [TransferRequest(account_number=..., ...)]: pydantic validates every field
    and raises one [ValidationError] naming the fields that failed. *)
Definition TransferRequest_init
    (account_number amount descriptor idempotency_key : pyval) : Result TransferRequest :=
  let r_account_number := Clabe_validate account_number in
  let r_amount := StrictPositiveInt_validate amount in
  let r_descriptor := StrictStr_validate descriptor in
  let r_idempotency_key := str_validator idempotency_key in
  match r_account_number, r_amount, r_descriptor, r_idempotency_key with
  | Some a, Some m, Some d, Some k =>
      Ok {| req_account_number := a; req_amount := m; req_descriptor := d;
            req_idempotency_key := k |}
  | _, _, _, _ =>
      Raise (ValidationError
        (failing "account_number" r_account_number ++ failing "amount" r_amount
         ++ failing "descriptor" r_descriptor
         ++ failing "idempotency_key" r_idempotency_key))
  end.

(** [req.dict()] *)
Definition TransferRequest_dict (req : TransferRequest) : dict :=
  {[ "account_number" := PyStr (req_account_number req);
     "amount" := PyInt (req_amount req);
     "descriptor" := PyStr (req_descriptor req);
     "idempotency_key" := PyStr (req_idempotency_key req) ]}.

(** ** [Transfer] (lines 35 to 73) *)

(** [f'{dt.datetime.utcnow().date()}:{account_number}:{amount}'] *)
Definition _gen_idempotency_key (account_number amount : pyval) : M string :=
  now ← datetime_utcnow;
  mret (date_str (datetime_date now) +:+ ":" +:+ py_str account_number
          +:+ ":" +:+ py_str amount).

Definition create (account_number amount descriptor idempotency_key : pyval) : M ref :=
  idempotency_key ←
    (if py_not idempotency_key
     then key ← _gen_idempotency_key account_number amount; mret (PyStr key)
     else mret idempotency_key);
  req ← lift (TransferRequest_init account_number amount descriptor idempotency_key);
  Creatable_create _endpoint (TransferRequest_dict req).

(** [Transfer.list] and [Transfer.retrieve], inherited. *)
Definition Transfer_list (filters : dict) : M Listing :=
  Listable_list _endpoint _query_params filters.

Definition Transfer_retrieve (id : string) : M ref :=
  Retrievable_retrieve _endpoint id.

(** The operations of the library that a caller can invoke on [Transfer], and
    what each one returns. *)
Inductive Call : Type :=
  | call_create (account_number amount descriptor idempotency_key : pyval)
  | call_retrieve (id : string)
  | call_list (filters : dict)
  | call_next (l : Listing).

Inductive Returned : Type :=
  | ret_instance (r : Result ref)
  | ret_listing (l : Result Listing)
  | ret_step (s : Result Step).

(** A later world of the same process: the clock reading and the server are
    the ones of the call, requests are only added to the log and instances
    are only added to the store. *)
Definition grows (w w' : World) : Prop :=
  utcnow w' = utcnow w
  /\ respond w' = respond w
  /\ sent w `prefix_of` sent w'
  /\ instances w `prefix_of` instances w'.

Definition monotone {A} (m : M A) : Prop := forall w, grows w (m w).2.

Definition exec (c : Call) (w : World) : Returned * World :=
  match c with
  | call_create a m d k => let (r, w') := create a m d k w in (ret_instance r, w')
  | call_retrieve i => let (r, w') := Transfer_retrieve i w in (ret_instance r, w')
  | call_list filters => let (r, w') := Transfer_list filters w in (ret_listing r, w')
  | call_next l => let (r, w') := Listing_next l w in (ret_step r, w')
  end.

(** The references to the instances a call has constructed and handed to the
    caller: the instance of a create or a retrieve, and the instances of the
    page a step of a listing has fetched. An [Item] is handed out of the
    buffer, it was constructed by the step that fetched its page. *)
Definition built (ret : Returned) : list ref :=
  match ret with
  | ret_instance (Ok r) => [r]
  | ret_step (Ok (Fetched rest)) => buffered rest
  | _ => []
  end.

(** [setattr(obj, name, value)]: line 19 declares the dataclass without
    [frozen=True], so whoever holds a reference can assign a field, and every
    holder of the reference sees the change. None of the operations above
    does it. *)
Definition setattr (r : ref) (assign : Transfer -> Transfer) : M unit := fun w =>
  (Ok tt,
   {| utcnow := utcnow w; respond := respond w; sent := sent w;
      instances := alter assign r (instances w) |}).

End Cuenca.

(** ** A concrete runtime and a mocked server

    One instance of [Runtime] and two worlds on which the embedding runs. *)

Inductive MockNetwork : Type := internal | spei.

(** No float is ever printed on these worlds, so [float_str] is a stand-in. *)
Definition mock_runtime : Runtime := {|
  float_str := fun _ => "nan";
  str_validator := StrictStr_validate;
  str_validator_str := fun _ => eq_refl;
  int_validator := fun v => match v with PyInt z => Some z | _ => None end;
  int_validator_int := fun _ => eq_refl;
  datetime_validator := fun v =>
    match v with
    | PyStr "2020-05-01T12:00:00" => Some (Datetime (Date 2020 5 1) 12 0 0 0)
    | _ => None
    end;
  Network := MockNetwork;
  Network_validator := fun v =>
    match v with
    | PyStr "internal" => Some internal
    | PyStr "spei" => Some spei
    | _ => None
    end |}.

(** The mocked server: a POST to [/transfers] is answered with the transfer it
    created, already [succeeded]; a GET of [/transfers] with one empty page;
    anything else is not found. *)
Definition mock_respond (rq : Request) : Result Response :=
  match rq with
  | POST "/transfers" json =>
      Ok (JsonObject (json ∪ {[ "id" := PyStr "TR01";
                                "created_at" := PyStr "2020-05-01T12:00:00";
                                "updated_at" := PyStr "2020-05-01T12:00:00";
                                "status" := PyStr "succeeded";
                                "network" := PyStr "spei" ]}))
  | GET "/transfers" _ => Ok (JsonPage [] None)
  | _ => Raise (HTTPError 404)
  end.

Definition morning : World (RT := mock_runtime) := {|
  utcnow := Datetime (Date 2020 5 1) 9 30 0 0;
  respond := mock_respond;
  sent := [];
  instances := [] |}.

Definition mock_transfer : Transfer (RT := mock_runtime) :=
  @Build_Transfer mock_runtime
    "TR00" (Datetime (Date 2020 4 30) 8 0 0 0) (Datetime (Date 2020 4 30) 8 0 0 0)
    "646180157000000004" 500 "rent" "order-122" submitted spei None.

Definition evening : World (RT := mock_runtime) := {|
  utcnow := Datetime (Date 2020 5 1) 23 59 59 0;
  respond := mock_respond;
  sent := [GET "/transfers" ∅];
  instances := [mock_transfer] |}.

(** A transfer the caller holds, fetched while it was [submitted], and the
    server some time later, when it reports the same transfer as [succeeded]. *)
Definition stored_transfer : Transfer (RT := mock_runtime) :=
  @Build_Transfer mock_runtime
    "TR00" (Datetime (Date 2020 5 1) 12 0 0 0) (Datetime (Date 2020 5 1) 12 0 0 0)
    "646180157000000004" 500 "rent" "order-122" submitted spei None.

Definition later_answer : dict :=
  {[ "id" := PyStr "TR00";
     "created_at" := PyStr "2020-05-01T12:00:00";
     "updated_at" := PyStr "2020-05-01T12:00:00";
     "account_number" := PyStr "646180157000000004";
     "amount" := PyInt 500;
     "descriptor" := PyStr "rent";
     "idempotency_key" := PyStr "order-122";
     "status" := PyStr "succeeded";
     "network" := PyStr "spei" ]}.

Definition later_respond (rq : Request) : Result Response :=
  match rq with
  | GET "/transfers/TR00" _ => Ok (JsonObject later_answer)
  | GET "/transfers" _ => Ok (JsonPage [later_answer; later_answer] None)
  | _ => Raise (HTTPError 404)
  end.

Definition later : World (RT := mock_runtime) := {|
  utcnow := Datetime (Date 2020 5 1) 18 0 0 0;
  respond := later_respond;
  sent := [];
  instances := [stored_transfer] |}.

Definition succeeded_transfer : Transfer (RT := mock_runtime) :=
  @Build_Transfer mock_runtime
    "TR00" (Datetime (Date 2020 5 1) 12 0 0 0) (Datetime (Date 2020 5 1) 12 0 0 0)
    "646180157000000004" 500 "rent" "order-122" succeeded spei None.

(** The same server on the following day, and a server that is down. *)
Definition next_morning : World (RT := mock_runtime) := {|
  utcnow := Datetime (Date 2020 5 2) 9 30 0 0;
  respond := mock_respond;
  sent := [];
  instances := [] |}.

Definition offline : World (RT := mock_runtime) := {|
  utcnow := Datetime (Date 2020 5 1) 9 30 0 0;
  respond := fun _ => Raise (HTTPError 503);
  sent := [];
  instances := [] |}.

(** The payload of the order used in the examples, and the mocked answer to
    it. *)
Definition mock_payload : dict :=
  {[ "account_number" := PyStr "646180157000000004"; "amount" := PyInt 10000;
     "descriptor" := PyStr "payment"; "idempotency_key" := PyStr "order-123" ]}.

Definition mock_answer : dict :=
  mock_payload ∪ {[ "id" := PyStr "TR01";
                    "created_at" := PyStr "2020-05-01T12:00:00";
                    "updated_at" := PyStr "2020-05-01T12:00:00";
                    "status" := PyStr "succeeded";
                    "network" := PyStr "spei" ]}.

(** The range Python's [date] keeps its fields in ([MINYEAR] is 1 and
    [MAXYEAR] is 9999). *)
Definition valid_date (d : date) : Prop :=
  1 <= Z.of_nat (year d) <= 9999
  /\ 1 <= Z.of_nat (month d) <= 12
  /\ 1 <= Z.of_nat (day d) <= 31.

(** The number a string of decimal digits denotes, read from the left. *)
Fixpoint value_from (acc : nat) (s : string) : nat :=
  match s with
  | EmptyString => acc
  | String c s' => value_from (10 * acc + digit_value c) s'
  end.

Definition decimal_value (s : string) : nat := value_from 0 s.

(** * Properties *)

(** ** Field validators *)

Lemma is_digit_value (c : ascii) : is_digit c = true -> (digit_value c < 10)%nat.
Proof.
  unfold is_digit, digit_value. intros H.
  apply andb_true_iff in H as [H1 H2].
  apply Nat.leb_le in H1, H2. lia.
Qed.

(** A digit is the complement to 10 of a sum exactly when it completes the sum
    to a multiple of 10. *)
Lemma control_digit_complement (total c : nat) :
  (c < 10)%nat ->
  (c = (10 - total mod 10) mod 10 <-> (total + c) mod 10 = 0)%nat.
Proof.
  intros Hc.
  pose proof (Nat.mod_upper_bound total 10 ltac:(lia)) as Hb.
  rewrite (Nat.Div0.add_mod total c 10), (Nat.mod_small c 10 Hc).
  generalize dependent (total mod 10)%nat. intros r Hr.
  do 10 (destruct r as [|r]; [do 10 (destruct c as [|c]; [vm_compute; split; congruence|]); lia|]).
  lia.
Qed.

Lemma Clabe_validate_Some (v : pyval) (s : string) :
  Clabe_validate v = Some s <-> v = PyStr s /\ valid_clabe s.
Proof.
  unfold valid_clabe.
  destruct v as [| | | |s']; simpl; try (split; [discriminate | intros [? _]; discriminate]).
  set (cs := list_ascii_of_string s').
  destruct (Nat.eqb_spec (length cs) CLABE_LENGTH) as [Hlen|Hlen]; simpl.
  2:{ split; [discriminate|]. intros [[= <-] (Hl & _)]. contradiction. }
  destruct (forallb is_digit cs) eqn:Hdig; simpl.
  2:{ split; [discriminate|]. intros [[= <-] (_ & Hd & _)].
      rewrite Forall_forall in Hd.
      assert (forallb is_digit cs = true) as Hd'.
      { apply forallb_forall. intros c Hc. apply Hd, list_elem_of_In, Hc. }
      fold cs in Hd'. congruence. }
  assert (Forall (fun c => is_digit c = true) cs) as Hall.
  { apply Forall_forall. intros c Hc.
    apply (proj1 (forallb_forall is_digit cs) Hdig), list_elem_of_In, Hc. }
  assert (last cs = cs !! 17%nat) as Hlast by (rewrite last_lookup, Hlen; reflexivity).
  destruct (cs !! 17%nat) as [c|] eqn:Hc.
  2:{ apply lookup_ge_None in Hc. unfold CLABE_LENGTH in Hlen. lia. }
  assert (digit_value c < 10)%nat as Hlt.
  { apply is_digit_value. rewrite Forall_forall in Hall. apply Hall.
    apply list_elem_of_lookup. eauto. }
  rewrite Hlast. simpl. unfold compute_control_digit.
  pose proof (control_digit_complement
                (weighted_sum (digit_value <$> take 17 cs)) (digit_value c) Hlt) as Hcd.
  case_bool_decide as Heq; simpl.
  - split.
    + intros [= <-]. repeat split; try assumption.
      exists c. split; [assumption|]. apply Hcd. congruence.
    + intros [[= <-] _]. reflexivity.
  - split; [discriminate|].
    intros [[= <-] (_ & _ & c' & Hc' & Hsum)].
    fold cs in Hc'. rewrite Hc in Hc'. injection Hc' as <-.
    destruct Heq. f_equal. apply Hcd. exact Hsum.
Qed.

Lemma Clabe_validate_None (v : pyval) :
  Clabe_validate v = None <-> ~ exists s, v = PyStr s /\ valid_clabe s.
Proof.
  split.
  - intros HN (s & Hs). apply Clabe_validate_Some in Hs. congruence.
  - intros Hno. destruct (Clabe_validate v) as [s|] eqn:E; [|reflexivity].
    destruct Hno. exists s. apply Clabe_validate_Some. exact E.
Qed.

Lemma StrictPositiveInt_validate_Some (v : pyval) (z : Z) :
  StrictPositiveInt_validate v = Some z <-> v = PyInt z /\ 0 < z.
Proof.
  destruct v as [| |z'| |]; simpl; try (split; [discriminate | intros [? _]; discriminate]).
  destruct (Z.ltb_spec 0 z').
  - split; [intros [= <-]; auto | intros [[= <-] _]; reflexivity].
  - split; [discriminate | intros [[= <-] ?]; lia].
Qed.

Lemma StrictPositiveInt_validate_None (v : pyval) :
  StrictPositiveInt_validate v = None <-> ~ exists z, v = PyInt z /\ 0 < z.
Proof.
  split.
  - intros HN (z & Hz). apply StrictPositiveInt_validate_Some in Hz. congruence.
  - intros Hno. destruct (StrictPositiveInt_validate v) as [z|] eqn:E; [|reflexivity].
    destruct Hno. exists z. apply StrictPositiveInt_validate_Some. exact E.
Qed.

Lemma StrictStr_validate_None (v : pyval) :
  StrictStr_validate v = None <-> ~ exists s, v = PyStr s.
Proof.
  destruct v; simpl; split; try discriminate; try reflexivity;
    try (intros _ (s' & Hs'); discriminate).
  intros H. destruct H. eauto.
Qed.

(** C5. Amount validation accepts a value exactly when it is an integer
    strictly greater than 0: every integer above 0 is accepted unchanged, and
    every integer at or below 0, every float, every string, every boolean and
    [None] are rejected. *)
Theorem StrictPositiveInt_accepts_iff (v : pyval) :
  (is_Some (StrictPositiveInt_validate v) <-> exists z, v = PyInt z /\ 0 < z)
  /\ (forall z, 0 < z -> StrictPositiveInt_validate (PyInt z) = Some z)
  /\ (forall z, z <= 0 -> StrictPositiveInt_validate (PyInt z) = None)
  /\ (forall f, StrictPositiveInt_validate (PyFloat f) = None)
  /\ (forall s, StrictPositiveInt_validate (PyStr s) = None)
  /\ (forall b, StrictPositiveInt_validate (PyBool b) = None)
  /\ StrictPositiveInt_validate PyNone = None.
Proof.
  split; [|repeat split; try reflexivity].
  - split.
    + intros [z Hz]. exists z. apply StrictPositiveInt_validate_Some, Hz.
    + intros (z & Hz). exists z. apply StrictPositiveInt_validate_Some, Hz.
  - intros z Hz. apply StrictPositiveInt_validate_Some. auto.
  - intros z Hz. apply StrictPositiveInt_validate_None. intros (z' & [= <-] & ?). lia.
Qed.

(** C6. The CLABE validator accepts exactly the strings that are 18 characters
    long, all digits, and whose weighted digit sum is a multiple of 10; every
    other value is rejected. *)
Theorem Clabe_accepts_iff (v : pyval) :
  (forall s, Clabe_validate v = Some s <-> v = PyStr s /\ valid_clabe s)
  /\ (Clabe_validate v = None <-> ~ exists s, v = PyStr s /\ valid_clabe s).
Proof.
  split; [intros s; apply Clabe_validate_Some | apply Clabe_validate_None].
Qed.

(** ** [Transfer.create] *)

Section Properties.
Context {RT : Runtime}.

Lemma TransferRequest_init_Ok (a m d k : pyval) (req : TransferRequest) :
  TransferRequest_init a m d k = Ok req ->
  Clabe_validate a = Some (req_account_number req)
  /\ StrictPositiveInt_validate m = Some (req_amount req)
  /\ StrictStr_validate d = Some (req_descriptor req)
  /\ str_validator k = Some (req_idempotency_key req).
Proof.
  unfold TransferRequest_init.
  destruct (Clabe_validate a), (StrictPositiveInt_validate m),
    (StrictStr_validate d), (str_validator k); try discriminate.
  intros [= <-]. repeat split.
Qed.

Lemma TransferRequest_init_valid (s : string) (z : Z) (d k : string) :
  valid_clabe s -> 0 < z ->
  TransferRequest_init (PyStr s) (PyInt z) (PyStr d) (PyStr k)
  = Ok {| req_account_number := s; req_amount := z; req_descriptor := d;
          req_idempotency_key := k |}.
Proof.
  intros Hs Hz. unfold TransferRequest_init.
  rewrite (proj2 (Clabe_validate_Some (PyStr s) s) (conj eq_refl Hs)).
  rewrite (proj2 (StrictPositiveInt_validate_Some (PyInt z) z) (conj eq_refl Hz)).
  rewrite str_validator_str. reflexivity.
Qed.

Lemma TransferRequest_init_invalid (a m d k : pyval) :
  Clabe_validate a = None \/ StrictPositiveInt_validate m = None
    \/ StrictStr_validate d = None ->
  exists fields, fields <> []
    /\ TransferRequest_init a m d k = Raise (ValidationError fields).
Proof.
  unfold TransferRequest_init.
  intros [H|[H|H]]; rewrite H;
    destruct (Clabe_validate a), (StrictPositiveInt_validate m),
      (StrictStr_validate d), (str_validator k);
    try discriminate; eexists; (split; [|reflexivity]); discriminate.
Qed.

(** The call, with the monad unfolded: the key is chosen, the request model is
    validated, and only then is the payload handed to [Creatable.create]. *)
Lemma create_eq (a m d k : pyval) (w : World) :
  create a m d k w =
  match TransferRequest_init a m d
          (if py_not k
           then PyStr (expected_key (datetime_date (utcnow w)) (py_str a) (py_str m))
           else k) with
  | Ok req => Creatable_create _endpoint (TransferRequest_dict req) w
  | Raise e => (Raise e, w)
  end.
Proof.
  unfold create, _gen_idempotency_key, datetime_utcnow, lift, expected_key,
    mbind, M_bind, mret, M_ret.
  destruct (py_not k);
    match goal with |- context [TransferRequest_init ?x ?y ?z ?t] =>
      destruct (TransferRequest_init x y z t) end; reflexivity.
Qed.

Lemma Creatable_create_eq (endpoint : string) (data : dict) (w : World) :
  Creatable_create endpoint data w =
  let w1 := record_request (POST endpoint data) w in
  match respond w (POST endpoint data) with
  | Ok (JsonObject o) =>
      match Transfer_init o with
      | Ok t => (Ok (length (instances w)), store t w1)
      | Raise e => (Raise e, w1)
      end
  | Ok (JsonPage _ _) => (Raise TypeError, w1)
  | Raise e => (Raise e, w1)
  end.
Proof.
  unfold Creatable_create, session_post, session_request, mbind, M_bind.
  destruct (respond w (POST endpoint data)) as [[o|items next]|e]; reflexivity.
Qed.

Lemma Creatable_create_sent (endpoint : string) (data : dict) (w : World) :
  sent (Creatable_create endpoint data w).2 = sent w ++ [POST endpoint data].
Proof.
  rewrite Creatable_create_eq. cbn.
  destruct (respond w (POST endpoint data)) as [[o|items next]|e]; try reflexivity.
  destruct (Transfer_init o); reflexivity.
Qed.

(** The status of a deserialized transfer is the one the response names. *)
Lemma Transfer_init_status (o : dict) (t : Transfer) :
  Transfer_init o = Ok t ->
  Status_validator (default PyNone (o !! "status")) = Some (status t).
Proof.
  unfold Transfer_init. case_bool_decide; cbn; [|discriminate].
  destruct (str_validator (default PyNone (o !! "id"))); [|discriminate].
  destruct (datetime_validator (default PyNone (o !! "created_at"))); [|discriminate].
  destruct (datetime_validator (default PyNone (o !! "updated_at"))); [|discriminate].
  destruct (str_validator (default PyNone (o !! "account_number"))); [|discriminate].
  destruct (int_validator (default PyNone (o !! "amount"))); [|discriminate].
  destruct (str_validator (default PyNone (o !! "descriptor"))); [|discriminate].
  destruct (str_validator (default PyNone (o !! "idempotency_key"))); [|discriminate].
  destruct (Status_validator (default PyNone (o !! "status"))); [|discriminate].
  destruct (Network_validator (default PyNone (o !! "network"))); [|discriminate].
  destruct (Optional str_validator (default PyNone (o !! "tracking_key"))); [|discriminate].
  intros [= <-]. reflexivity.
Qed.

Lemma expected_key_nonempty (today : date) (x y : string) : expected_key today x y <> "".
Proof.
  unfold expected_key. destruct (date_str today); discriminate.
Qed.

(** *** The frame of every operation *)

Lemma grows_refl (w : World) : grows w w.
Proof. repeat split; reflexivity. Qed.

Lemma grows_trans (w1 w2 w3 : World) : grows w1 w2 -> grows w2 w3 -> grows w1 w3.
Proof.
  intros (Hc & Hr & Hs & Hi) (Hc' & Hr' & Hs' & Hi').
  repeat split; try congruence; etrans; eassumption.
Qed.

Lemma monotone_ret {A} (a : A) : monotone (mret a).
Proof. intros w. apply grows_refl. Qed.

Lemma monotone_raise {A} (e : Exception) : monotone (raise (A := A) e).
Proof. intros w. apply grows_refl. Qed.

Lemma monotone_lift {A} (r : Result A) : monotone (lift r).
Proof. intros w. apply grows_refl. Qed.

Lemma monotone_bind {A B} (m : M A) (f : A -> M B) :
  monotone m -> (forall a, monotone (f a)) -> monotone (m ≫= f).
Proof.
  intros Hm Hf w. unfold mbind, M_bind. specialize (Hm w).
  destruct (m w) as [[a|e] w']; cbn in *; [|exact Hm].
  eapply grows_trans; [exact Hm | apply Hf].
Qed.

Lemma monotone_session_request (rq : Request) : monotone (session_request rq).
Proof.
  intros w. repeat split; cbn; [apply prefix_app_r|]; reflexivity.
Qed.

Lemma monotone_new (t : Transfer) : monotone (new t).
Proof.
  intros w. repeat split; cbn; [|apply prefix_app_r]; reflexivity.
Qed.

Lemma monotone_construct (resp : Response) : monotone (construct resp).
Proof.
  destruct resp; cbn; [|apply monotone_raise].
  apply monotone_bind; [apply monotone_lift | apply monotone_new].
Qed.

(** Constructing instances does not touch the request log. *)
Lemma monotone_construct_all (items : list dict) (w : World) :
  grows w (construct_all items w).2 /\ sent (construct_all items w).2 = sent w.
Proof.
  revert w. induction items as [|o items IH]; intros w; cbn.
  - split; [apply grows_refl | reflexivity].
  - unfold mbind, M_bind, lift, new. destruct (Transfer_init o) as [t|e]; cbn.
    + destruct (IH (store t w)) as [Hg Hs].
      destruct (construct_all items (store t w)) as [[rs|e] w']; cbn in *.
      * split; [|exact Hs]. eapply grows_trans; [apply (monotone_new t w)|exact Hg].
      * split; [|exact Hs]. eapply grows_trans; [apply (monotone_new t w)|exact Hg].
    + split; [apply grows_refl | reflexivity].
Qed.

Lemma monotone_Creatable_create (endpoint : string) (data : dict) :
  monotone (Creatable_create endpoint data).
Proof.
  apply monotone_bind; [apply monotone_session_request | apply monotone_construct].
Qed.

Lemma monotone_create (a m d k : pyval) : monotone (create a m d k).
Proof.
  intros w. rewrite create_eq.
  destruct (TransferRequest_init _ _ _ _); [apply monotone_Creatable_create|].
  apply grows_refl.
Qed.

Lemma monotone_retrieve (i : string) : monotone (Transfer_retrieve i).
Proof.
  apply monotone_bind; [apply monotone_session_request | apply monotone_construct].
Qed.

Lemma monotone_list (filters : dict) : monotone (Transfer_list filters).
Proof.
  unfold Transfer_list, Listable_list.
  case_bool_decide; [apply monotone_ret | apply monotone_raise].
Qed.

Lemma monotone_next (l : Listing) : monotone (Listing_next l).
Proof.
  unfold Listing_next.
  destruct (buffered l); [|apply monotone_ret].
  destruct (next_request l) as [rq|]; [|apply monotone_ret].
  apply monotone_bind; [apply monotone_session_request|].
  intros [o|items next]; [apply monotone_raise|].
  apply monotone_bind; [|intros; apply monotone_ret].
  intros w. apply monotone_construct_all.
Qed.

Lemma monotone_exec (c : Call) (w : World) : grows w (exec c w).2.
Proof.
  destruct c as [a m d k|i|filters|l]; cbn.
  - pose proof (monotone_create a m d k w). by destruct (create a m d k w).
  - pose proof (monotone_retrieve i w). by destruct (Transfer_retrieve i w).
  - pose proof (monotone_list filters w). by destruct (Transfer_list filters w).
  - pose proof (monotone_next l w). by destruct (Listing_next l w).
Qed.

(** A request followed by a construction returns a reference to one new
    instance, placed after the existing ones. *)
Lemma fetch_construct_fresh (rq : Request) (w w' : World) (r' : ref) :
  (session_request rq ≫= construct) w = (Ok r', w') ->
  r' = length (instances w) /\ exists t, instances w' = (instances w ++ [t])%list.
Proof.
  unfold session_request, mbind, M_bind. cbn.
  destruct (respond w rq) as [[o|items next]|e]; cbn; try discriminate.
  unfold lift, new. destruct (Transfer_init o) as [t|e]; cbn; [|discriminate].
  intros [= <- <-]. split; [reflexivity|]. exists t. reflexivity.
Qed.

Lemma create_fresh (a m d k : pyval) (w w' : World) (r' : ref) :
  create a m d k w = (Ok r', w') ->
  r' = length (instances w) /\ exists t, instances w' = (instances w ++ [t])%list.
Proof.
  rewrite create_eq. destruct (TransferRequest_init _ _ _ _) as [req|e].
  - apply fetch_construct_fresh.
  - discriminate.
Qed.

(** With a falsy key, whatever the call sends carries the generated key. *)
Lemma create_generated_key (w : World) (a m d k : pyval) (path : string) (json : dict) :
  py_bool k = false ->
  POST path json ∈ drop (length (sent w)) (sent (create a m d k w).2) ->
  json !! "idempotency_key"
  = Some (PyStr (expected_key (datetime_date (utcnow w)) (py_str a) (py_str m))).
Proof.
  intros Hk. rewrite create_eq. unfold py_not. rewrite Hk. cbn [negb].
  destruct (TransferRequest_init _ _ _ _) as [req|e] eqn:Hreq; cbn.
  - rewrite Creatable_create_sent, drop_app_length.
    intros Hin. apply list_elem_of_singleton in Hin. injection Hin as -> ->.
    apply TransferRequest_init_Ok in Hreq as (_ & _ & _ & Hkey).
    rewrite str_validator_str in Hkey. injection Hkey as Hkey.
    rewrite Hkey. unfold TransferRequest_dict. by simplify_map_eq.
  - rewrite drop_all. intros Hin. by apply not_elem_of_nil in Hin.
Qed.

(** C1. [Transfer.create('646180157000000004', 10000, 'payment', 'order-123')]
    sends one POST to [/transfers] whose body is exactly the four given
    members, whatever the server answers; and when the answer is a well-formed
    transfer whose status is ['succeeded'], the call returns a Transfer whose
    status is [succeeded]. *)
Theorem create_scenario (w : World) :
  let body : dict :=
    {[ "account_number" := PyStr "646180157000000004"; "amount" := PyInt 10000;
       "descriptor" := PyStr "payment"; "idempotency_key" := PyStr "order-123" ]} in
  let run :=
    create (PyStr "646180157000000004") (PyInt 10000) (PyStr "payment")
           (PyStr "order-123") w in
  sent run.2 = sent w ++ [POST "/transfers" body]
  /\ forall o,
       respond w (POST "/transfers" body) = Ok (JsonObject o) ->
       o !! "status" = Some (PyStr "succeeded") ->
       (exists t, Transfer_init o = Ok t) ->
       exists r t, run.1 = Ok r /\ instances run.2 !! r = Some t /\ status t = succeeded.
Proof.
  intros body run.
  assert (run = Creatable_create _endpoint body w) as Hrun.
  { unfold run. rewrite create_eq. cbn [py_not py_bool String.eqb negb].
    unfold TransferRequest_init. rewrite str_validator_str.
    replace (Clabe_validate (PyStr "646180157000000004"))
      with (Some "646180157000000004") by (vm_compute; reflexivity).
    reflexivity. }
  rewrite Hrun. split; [apply Creatable_create_sent|].
  intros o Hresp Hstatus (t & Ht).
  rewrite Creatable_create_eq. cbn zeta. unfold _endpoint in *.
  rewrite Hresp, Ht. cbn.
  exists (length (instances w)), t. split; [reflexivity|]. split.
  - rewrite lookup_app_r, Nat.sub_diag by reflexivity. reflexivity.
  - apply Transfer_init_status in Ht. rewrite Hstatus in Ht.
    assert (Status_validator (default PyNone (Some (PyStr "succeeded"))) = Some succeeded)
      as E by (vm_compute; reflexivity).
    congruence.
Qed.

(** C2. When the idempotency key is omitted, every request the call submits
    carries as key the UTC date of the call, the account number and the
    amount, joined by colons; and for arguments that pass validation the call
    does submit one request, whose body holds that key. *)
Theorem create_default_key (w : World) (a m d : pyval) :
  let key := expected_key (datetime_date (utcnow w)) (py_str a) (py_str m) in
  (forall path json,
     POST path json ∈ drop (length (sent w)) (sent (create a m d PyNone w).2) ->
     json !! "idempotency_key" = Some (PyStr key))
  /\ (forall s z ds,
        a = PyStr s -> m = PyInt z -> d = PyStr ds -> valid_clabe s -> 0 < z ->
        key = expected_key (datetime_date (utcnow w)) s (int_str z)
        /\ sent (create a m d PyNone w).2
           = sent w ++
             [POST "/transfers"
                {[ "account_number" := PyStr s; "amount" := PyInt z;
                   "descriptor" := PyStr ds; "idempotency_key" := PyStr key ]}]).
Proof.
  intros key. split.
  - intros path json. apply create_generated_key. reflexivity.
  - intros s z ds -> -> -> Hs Hz. split; [reflexivity|].
    rewrite create_eq. cbn [py_not py_bool negb].
    rewrite (TransferRequest_init_valid s z ds _ Hs Hz).
    apply Creatable_create_sent.
Qed.

(** C3. When the account number is not a valid CLABE, or the amount is not a
    strictly positive integer, or the descriptor is not a string, the call
    raises a validation error that names the offending fields and leaves the
    process as it was: no request has been recorded by the session. *)
Theorem create_invalid_raises_locally (w : World) (a m d k : pyval) :
  (~ (exists s, a = PyStr s /\ valid_clabe s))
  \/ (~ (exists z, m = PyInt z /\ 0 < z))
  \/ (~ (exists s, d = PyStr s)) ->
  exists fields, fields <> []
    /\ create a m d k w = (Raise (ValidationError fields), w).
Proof.
  intros H. rewrite create_eq.
  destruct (TransferRequest_init_invalid a m d
             (if py_not k
              then PyStr (expected_key (datetime_date (utcnow w)) (py_str a) (py_str m))
              else k)) as (fields & Hne & ->).
  - rewrite Clabe_validate_None, StrictPositiveInt_validate_None, StrictStr_validate_None.
    exact H.
  - exists fields. split; [exact Hne | reflexivity].
Qed.

(** C4. Two runs of the key generation with the same account number and the
    same amount, at two moments of the same UTC calendar date, return the same
    key. *)
Theorem gen_idempotency_key_deterministic (w1 w2 : World) (a m : pyval) :
  datetime_date (utcnow w1) = datetime_date (utcnow w2) ->
  exists key,
    (_gen_idempotency_key a m w1).1 = Ok key
    /\ (_gen_idempotency_key a m w2).1 = Ok key.
Proof.
  intros Hday. eexists. split; [reflexivity|].
  unfold _gen_idempotency_key, datetime_utcnow, mbind, M_bind. cbn.
  rewrite Hday. reflexivity.
Qed.

(** C10. A falsy idempotency key (the empty string, [None], [0], [False])
    is treated exactly like an omitted one: the call behaves as the call
    without a key, every request it sends carries the generated key, and that
    key is not the empty string. With arguments that pass validation the call
    does send its request, and the key in the body is the generated
    date, account and amount, in place of the falsy one. *)
Theorem create_falsy_key_regenerated (w : World) (a m d k : pyval) :
  py_bool k = false ->
  create a m d k w = create a m d PyNone w
  /\ create a m d (PyStr "") w = create a m d PyNone w
  /\ (forall path json,
        POST path json ∈ drop (length (sent w)) (sent (create a m d k w).2) ->
        json !! "idempotency_key"
          = Some (PyStr (expected_key (datetime_date (utcnow w)) (py_str a) (py_str m)))
        /\ json !! "idempotency_key" <> Some (PyStr ""))
  /\ (forall s z ds,
        a = PyStr s -> m = PyInt z -> d = PyStr ds -> valid_clabe s -> 0 < z ->
        let sends (key : pyval) :=
          sent (create a m d key w).2
          = sent w ++
            [POST "/transfers"
               {[ "account_number" := PyStr s; "amount" := PyInt z;
                  "descriptor" := PyStr ds;
                  "idempotency_key" :=
                    PyStr (expected_key (datetime_date (utcnow w)) s (int_str z)) ]}] in
        sends k /\ sends (PyStr "")).
Proof.
  intros Hk.
  assert (forall k', py_bool k' = false -> create a m d k' w = create a m d PyNone w)
    as Hsame.
  { intros k' Hk'. rewrite !create_eq. unfold py_not. rewrite Hk'. reflexivity. }
  split; [apply Hsame, Hk|]. split; [apply Hsame; reflexivity|]. split.
  - intros path json Hin.
    rewrite (create_generated_key w a m d k path json Hk Hin).
    split; [reflexivity|]. intros [= Hempty]. eapply expected_key_nonempty, Hempty.
  - intros s z ds -> -> -> Hs Hz sends.
    assert (sends PyNone) as Hsends.
    { unfold sends. rewrite create_eq. cbn [py_not py_bool negb py_str].
      rewrite (TransferRequest_init_valid s z ds _ Hs Hz).
      apply Creatable_create_sent. }
    unfold sends in *. split.
    + rewrite (Hsame k Hk). exact Hsends.
    + rewrite (Hsame (PyStr "") eq_refl). exact Hsends.
Qed.

(** ** Listing and the class configuration *)

(** C7. A call to [Transfer.list] with a filter key outside of
    [account_number], [idempotency_key], [status] raises a configuration
    error that names the key, and leaves the process as it was: no request has
    been recorded by the session and no listing exists to consume. *)
Theorem list_rejects_unknown_filter (w : World) (filters : dict) (k : string) :
  k ∈ dom filters ->
  ~ (k = "account_number" \/ k = "idempotency_key" \/ k = "status") ->
  exists keys, k ∈ keys
    /\ Transfer_list filters w = (Raise (ConfigurationError keys), w).
Proof.
  intros Hin Hout. exists (unaccepted _query_params filters).
  assert (k ∈ unaccepted _query_params filters) as Hk.
  { unfold unaccepted, _query_params. apply elem_of_difference.
    split; [exact Hin|]. rewrite !elem_of_union, !elem_of_singleton. tauto. }
  split; [exact Hk|].
  unfold Transfer_list, Listable_list.
  case_bool_decide as He; [|reflexivity].
  rewrite He in Hk. set_solver.
Qed.

(** With accepted filters the listing starts, and its first consumption is
    the GET of the endpoint with the filters as query parameters. *)
Lemma list_accepted_fetches (w : World) (filters : dict) (l : Listing) :
  dom filters ⊆ _query_params ->
  (Transfer_list filters w).1 = Ok l ->
  (Transfer_list filters w).2 = w
  /\ sent (Listing_next l w).2 = (sent w ++ [GET "/transfers" filters])%list.
Proof.
  intros Hsub. unfold Transfer_list, Listable_list, unaccepted.
  case_bool_decide as He; [|set_solver].
  cbn. intros [= <-]. split; [reflexivity|].
  unfold Listing_next, session_request, mbind, M_bind. cbn.
  destruct (respond w (GET _endpoint filters)) as [[o|items next]|e]; try reflexivity.
  pose proof (monotone_construct_all items (record_request (GET _endpoint filters) w))
    as Hm.
  destruct (construct_all items _) as [[rs|e] w'] eqn:E; cbn in *;
    destruct Hm as [_ Hsent]; rewrite Hsent; reflexivity.
Qed.

(** C8. [Transfer] is configured as the interface table states: its endpoint
    is [/transfers], it supports create, list and retrieve, and the keys it
    accepts for listing are exactly [account_number], [idempotency_key] and
    [status]. *)
Theorem Transfer_configuration :
  _endpoint = "/transfers"
  /\ (supports op_create = true /\ supports op_list = true
      /\ supports op_retrieve = true)
  /\ (forall k : string,
        k ∈ _query_params
        <-> k = "account_number" \/ k = "idempotency_key" \/ k = "status").
Proof.
  split; [reflexivity|]. split; [repeat split|].
  intros k. unfold _query_params.
  rewrite !elem_of_union, !elem_of_singleton. tauto.
Qed.

(** ** Instances are never mutated *)

(** A field assignment does change what a reference denotes, for every holder
    of the reference: the store is a mutable one, and keeping an instance as it
    is, is a property of an operation, not of the store. *)
Lemma setattr_mutates (w : World) (r : ref) (t : Transfer) (assign : Transfer -> Transfer) :
  instances w !! r = Some t ->
  instances (setattr r assign w).2 !! r = Some (assign t).
Proof.
  intros Hr. unfold setattr. cbn [snd instances].
  unfold ref in *. rewrite list_lookup_alter. case_decide; [|done].
  rewrite Hr. reflexivity.
Qed.

Lemma request_construct_eq (rq : Request) (w : World) :
  (session_request rq ≫= construct) w =
  let w1 := record_request rq w in
  match respond w rq with
  | Ok (JsonObject o) =>
      match Transfer_init o with
      | Ok t => (Ok (length (instances w)), store t w1)
      | Raise e => (Raise e, w1)
      end
  | Ok (JsonPage _ _) => (Raise TypeError, w1)
  | Raise e => (Raise e, w1)
  end.
Proof.
  unfold session_request, mbind, M_bind.
  destruct (respond w rq) as [[o|items next]|e]; reflexivity.
Qed.

(** What a request followed by a construction adds to the store, and the
    reference it returns. *)
Lemma request_construct_appends (rq : Request) (w : World) :
  exists ts,
    instances ((session_request rq ≫= construct) w).2 = (instances w ++ ts)%list
    /\ (built (ret_instance ((session_request rq ≫= construct) w).1) = []
        \/ built (ret_instance ((session_request rq ≫= construct) w).1)
           = seq (length (instances w)) (length ts)).
Proof.
  rewrite request_construct_eq. cbn zeta.
  destruct (respond w rq) as [[o|items next]|e]; cbn;
    try (exists []; rewrite app_nil_r; split; [reflexivity | by left]).
  destruct (Transfer_init o) as [t|e]; cbn.
  - exists [t]. split; [reflexivity | by right].
  - exists []. rewrite app_nil_r. split; [reflexivity | by left].
Qed.

(** Constructing the instances of a page appends them to the store, in the
    order of the page, and returns their references. *)
Lemma construct_all_appends (items : list dict) (w : World) :
  exists ts,
    instances (construct_all items w).2 = (instances w ++ ts)%list
    /\ forall rs, (construct_all items w).1 = Ok rs ->
         rs = seq (length (instances w)) (length ts).
Proof.
  revert w. induction items as [|o items IH]; intros w; cbn.
  - exists []. rewrite app_nil_r. split; [reflexivity|]. by intros rs [= <-].
  - unfold mbind, M_bind, lift, new. destruct (Transfer_init o) as [t|e]; cbn.
    + destruct (IH (store t w)) as (ts & Hinst & Hrs).
      destruct (construct_all items (store t w)) as [[rs|e] w'] eqn:E; cbn in *.
      * exists (t :: ts). rewrite Hinst, <- app_assoc. split; [reflexivity|].
        intros rs' [= <-]. rewrite (Hrs rs eq_refl), length_app. cbn.
        by rewrite Nat.add_1_r.
      * exists (t :: ts). rewrite Hinst, <- app_assoc. split; [reflexivity|].
        discriminate.
    + exists []. rewrite app_nil_r. split; [reflexivity | discriminate].
Qed.

Lemma construct_all_builds (items : list dict) (ts : list Transfer) (w : World) :
  Forall2 (fun o t => Transfer_init o = Ok t) items ts ->
  (construct_all items w).1 = Ok (seq (length (instances w)) (length items))
  /\ instances (construct_all items w).2 = (instances w ++ ts)%list.
Proof.
  intros H. revert w. induction H as [|o t items ts Ht _ IH]; intros w; cbn.
  - rewrite app_nil_r. split; reflexivity.
  - unfold mbind, M_bind, lift, new. rewrite Ht. cbn.
    destruct (IH (store t w)) as [Hrs Hinst].
    destruct (construct_all items (store t w)) as [[rs|e] w'] eqn:E; cbn in *;
      [|discriminate].
    injection Hrs as ->. rewrite Hinst, <- app_assoc, length_app. cbn.
    by rewrite Nat.add_1_r.
Qed.

Lemma create_appends (a m d k : pyval) (w : World) :
  exists ts,
    instances (create a m d k w).2 = (instances w ++ ts)%list
    /\ (built (ret_instance (create a m d k w).1) = []
        \/ built (ret_instance (create a m d k w).1)
           = seq (length (instances w)) (length ts)).
Proof.
  rewrite create_eq. destruct (TransferRequest_init _ _ _ _) as [req|e].
  - exact (request_construct_appends (POST _endpoint (TransferRequest_dict req)) w).
  - exists []. rewrite app_nil_r. split; [reflexivity | by left].
Qed.

Lemma retrieve_eq (i : string) (w : World) :
  Transfer_retrieve i w =
  let rq := GET (_endpoint +:+ "/" +:+ i) ∅ in
  match respond w rq with
  | Ok (JsonObject o) =>
      match Transfer_init o with
      | Ok t => (Ok (length (instances w)), store t (record_request rq w))
      | Raise e => (Raise e, record_request rq w)
      end
  | Ok (JsonPage _ _) => (Raise TypeError, record_request rq w)
  | Raise e => (Raise e, record_request rq w)
  end.
Proof. exact (request_construct_eq (GET (_endpoint +:+ "/" +:+ i) ∅) w). Qed.

Lemma retrieve_appends (i : string) (w : World) :
  exists ts,
    instances (Transfer_retrieve i w).2 = (instances w ++ ts)%list
    /\ (built (ret_instance (Transfer_retrieve i w).1) = []
        \/ built (ret_instance (Transfer_retrieve i w).1)
           = seq (length (instances w)) (length ts)).
Proof. exact (request_construct_appends (GET (_endpoint +:+ "/" +:+ i) ∅) w). Qed.

Lemma next_appends (l : Listing) (w : World) :
  exists ts,
    instances (Listing_next l w).2 = (instances w ++ ts)%list
    /\ (built (ret_step (Listing_next l w).1) = []
        \/ built (ret_step (Listing_next l w).1)
           = seq (length (instances w)) (length ts)).
Proof.
  unfold Listing_next.
  destruct (buffered l) as [|r rs];
    [|exists []; rewrite app_nil_r; split; [reflexivity | by left]].
  destruct (next_request l) as [rq|];
    [|exists []; rewrite app_nil_r; split; [reflexivity | by left]].
  unfold session_request, mbind, M_bind.
  destruct (respond w rq) as [[o|items next]|e]; cbn;
    try (exists []; rewrite app_nil_r; split; [reflexivity | by left]).
  destruct (construct_all_appends items (record_request rq w)) as (ts & Hi & Hrs).
  destruct (construct_all items (record_request rq w)) as [[rs|e] w'] eqn:E;
    cbn in *; exists ts; (split; [exact Hi|]).
  - right. apply Hrs. reflexivity.
  - by left.
Qed.

(** Every call appends to the store, and the references it hands out for the
    instances it constructed are those of the appended instances. *)
Lemma exec_appends (c : Call) (w : World) :
  exists ts,
    instances (exec c w).2 = (instances w ++ ts)%list
    /\ (built (exec c w).1 = []
        \/ built (exec c w).1 = seq (length (instances w)) (length ts)).
Proof.
  destruct c as [a m d k|i|filters|l]; cbn [exec].
  - pose proof (create_appends a m d k w) as H.
    destruct (create a m d k w) as [res w']. exact H.
  - pose proof (retrieve_appends i w) as H.
    destruct (Transfer_retrieve i w) as [res w']. exact H.
  - exists []. rewrite app_nil_r.
    unfold Transfer_list, Listable_list. case_bool_decide; cbn; auto.
  - pose proof (next_appends l w) as H.
    destruct (Listing_next l w) as [res w']. exact H.
Qed.

(** C9. No operation of the library changes an instance that already exists,
    although the store allows it: after a create, a retrieve, a list or a step
    of a listing, every reference still denotes the record it denoted before,
    field for field. The instances a call hands out are new objects, pairwise
    different and different from every existing one. A later state of the
    server is observed only through them: a retrieve builds a new instance
    from the answer of the server, and a step of a listing builds one new
    instance for every item of the page it fetches. *)
Theorem instances_never_mutated (w : World) (r : ref) (t : Transfer) :
  instances w !! r = Some t ->
  (forall c : Call,
     instances (exec c w).2 !! r = Some t
     /\ NoDup (built (exec c w).1)
     /\ forall r', r' ∈ built (exec c w).1 ->
          r' <> r /\ instances w !! r' = None
          /\ is_Some (instances (exec c w).2 !! r'))
  /\ (forall (i : string) (o : dict) (t' : Transfer),
        respond w (GET ("/transfers" +:+ "/" +:+ i) ∅) = Ok (JsonObject o) ->
        Transfer_init o = Ok t' ->
        (exec (call_retrieve i) w).1 = ret_instance (Ok (length (instances w)))
        /\ instances (exec (call_retrieve i) w).2 = (instances w ++ [t'])%list)
  /\ (forall (l : Listing) (rq : Request) (items : list dict)
             (next : option string) (ts : list Transfer),
        buffered l = [] -> next_request l = Some rq ->
        respond w rq = Ok (JsonPage items next) ->
        Forall2 (fun o t' => Transfer_init o = Ok t') items ts ->
        (exists rest,
           (exec (call_next l) w).1 = ret_step (Ok (Fetched rest))
           /\ buffered rest = seq (length (instances w)) (length items))
        /\ instances (exec (call_next l) w).2 = (instances w ++ ts)%list).
Proof.
  intros Hr. apply lookup_lt_Some in Hr as Hlt. split; [|split].
  - intros c. destruct (exec_appends c w) as (ts & Hi & Hb).
    split; [|split].
    + rewrite Hi. by apply lookup_app_l_Some.
    + destruct Hb as [->| ->]; [constructor | apply NoDup_seq].
    + intros r' Hin. destruct Hb as [Hb|Hb]; rewrite Hb in Hin.
      { by apply not_elem_of_nil in Hin. }
      apply elem_of_seq in Hin as [Hge Hlt'].
      split; [lia|]. split; [apply lookup_ge_None; lia|].
      apply lookup_lt_is_Some. rewrite Hi, length_app. lia.
  - intros i o t' Hresp Ht'. cbn [exec].
    rewrite retrieve_eq. cbn zeta. unfold _endpoint. rewrite Hresp, Ht'.
    split; reflexivity.
  - intros l rq items next ts Hbuf Hnext Hresp Hts. cbn.
    unfold Listing_next. rewrite Hbuf, Hnext.
    unfold session_request, mbind, M_bind. rewrite Hresp. cbn.
    destruct (construct_all_builds items ts (record_request rq w) Hts) as [Hrs Hi].
    destruct (construct_all items (record_request rq w)) as [[rs|e] w'] eqn:E;
      cbn in *; [|discriminate].
    injection Hrs as ->. split; [|exact Hi].
    eexists. split; reflexivity.
Qed.

End Properties.

(** * The theorems at concrete inputs

    Every statement above that has a premise is applied here to the mocked
    server, with its premises evaluated. *)

Lemma create_scenario_witness :
  exists r t,
    (create (RT := mock_runtime) (PyStr "646180157000000004") (PyInt 10000)
            (PyStr "payment") (PyStr "order-123") morning).1 = Ok r
    /\ instances
         (create (RT := mock_runtime) (PyStr "646180157000000004") (PyInt 10000)
                 (PyStr "payment") (PyStr "order-123") morning).2 !! r = Some t
    /\ status t = succeeded.
Proof.
  pose proof (create_scenario (RT := mock_runtime) morning) as H.
  cbv zeta in H. destruct H as [_ H].
  apply (H ({[ "account_number" := PyStr "646180157000000004"; "amount" := PyInt 10000;
               "descriptor" := PyStr "payment"; "idempotency_key" := PyStr "order-123" ]}
            ∪ {[ "id" := PyStr "TR01";
                 "created_at" := PyStr "2020-05-01T12:00:00";
                 "updated_at" := PyStr "2020-05-01T12:00:00";
                 "status" := PyStr "succeeded";
                 "network" := PyStr "spei" ]})).
  - reflexivity.
  - vm_compute. reflexivity.
  - eexists. vm_compute. reflexivity.
Defined.

Lemma create_default_key_witness :
  valid_clabe "646180157000000004"
  /\ 0 < 10000
  /\ sent (create (RT := mock_runtime) (PyStr "646180157000000004") (PyInt 10000)
                  (PyStr "payment") PyNone morning).2
     = [POST "/transfers"
          {[ "account_number" := PyStr "646180157000000004"; "amount" := PyInt 10000;
             "descriptor" := PyStr "payment";
             "idempotency_key" := PyStr "2020-05-01:646180157000000004:10000" ]}].
Proof.
  assert (valid_clabe "646180157000000004") as Hclabe.
  { unfold valid_clabe. cbn. split; [reflexivity|]. split.
    - repeat constructor.
    - eexists. split; reflexivity. }
  assert (0 < 10000) as Hpos by lia.
  split; [exact Hclabe|]. split; [exact Hpos|].
  pose proof (create_default_key (RT := mock_runtime) morning
                (PyStr "646180157000000004") (PyInt 10000) (PyStr "payment")) as H.
  cbv zeta in H. destruct H as [_ H].
  destruct (H "646180157000000004" 10000 "payment" eq_refl eq_refl eq_refl Hclabe Hpos)
    as [_ ->].
  vm_compute. reflexivity.
Defined.

Lemma create_invalid_raises_locally_witness :
  exists fields, fields <> []
    /\ create (RT := mock_runtime) (PyStr "bad-clabe") (PyInt 10000) (PyStr "x") PyNone
              morning
       = (Raise (ValidationError fields), morning).
Proof.
  apply (create_invalid_raises_locally (RT := mock_runtime) morning
           (PyStr "bad-clabe") (PyInt 10000) (PyStr "x") PyNone).
  left. intros (s & Hs & Hlen & _). injection Hs as <-.
  vm_compute in Hlen. discriminate.
Defined.

Lemma gen_idempotency_key_deterministic_witness :
  exists key,
    (_gen_idempotency_key (RT := mock_runtime)
       (PyStr "646180157000000004") (PyInt 10000) morning).1 = Ok key
    /\ (_gen_idempotency_key (RT := mock_runtime)
          (PyStr "646180157000000004") (PyInt 10000) evening).1 = Ok key.
Proof.
  apply (gen_idempotency_key_deterministic (RT := mock_runtime) morning evening).
  reflexivity.
Defined.

Lemma list_rejects_unknown_filter_witness :
  exists keys, "amount" ∈ keys
    /\ Transfer_list (RT := mock_runtime) {[ "amount" := PyInt 10000 ]} morning
       = (Raise (ConfigurationError keys), morning).
Proof.
  apply (list_rejects_unknown_filter (RT := mock_runtime) morning
           {[ "amount" := PyInt 10000 ]} "amount").
  - rewrite dom_singleton_L. apply elem_of_singleton. reflexivity.
  - intros [H|[H|H]]; discriminate.
Defined.

Lemma instances_never_mutated_witness :
  instances (exec (RT := mock_runtime) (call_retrieve "TR00") later).2
  = [stored_transfer; succeeded_transfer]
  /\ status stored_transfer = submitted
  /\ (exec (RT := mock_runtime) (call_retrieve "TR00") later).1 = ret_instance (Ok 1%nat)
  /\ instances
       (exec (RT := mock_runtime)
          (call_next {| buffered := []; next_request := Some (GET "/transfers" ∅) |})
          later).2
     = [stored_transfer; succeeded_transfer; succeeded_transfer].
Proof.
  destruct (instances_never_mutated (RT := mock_runtime) later 0%nat stored_transfer
              eq_refl) as (_ & Hretrieve & Hnext).
  destruct (Hretrieve "TR00" later_answer succeeded_transfer eq_refl)
    as [Hres Hinst]; [vm_compute; reflexivity|].
  destruct (Hnext {| buffered := []; next_request := Some (GET "/transfers" ∅) |}
              (GET "/transfers" ∅) [later_answer; later_answer] None
              [succeeded_transfer; succeeded_transfer] eq_refl eq_refl eq_refl)
    as [_ Hpage].
  { repeat constructor; vm_compute; reflexivity. }
  split; [exact Hinst|]. split; [reflexivity|]. split; [exact Hres|]. exact Hpage.
Defined.

Lemma create_falsy_key_regenerated_witness :
  create (RT := mock_runtime) (PyStr "646180157000000004") (PyInt 10000)
         (PyStr "payment") (PyStr "") morning
  = create (RT := mock_runtime) (PyStr "646180157000000004") (PyInt 10000)
           (PyStr "payment") PyNone morning
  /\ sent (create (RT := mock_runtime) (PyStr "646180157000000004") (PyInt 10000)
                  (PyStr "payment") (PyStr "") morning).2
     = [POST "/transfers"
          {[ "account_number" := PyStr "646180157000000004"; "amount" := PyInt 10000;
             "descriptor" := PyStr "payment";
             "idempotency_key" := PyStr "2020-05-01:646180157000000004:10000" ]}].
Proof.
  destruct (create_falsy_key_regenerated (RT := mock_runtime) morning
              (PyStr "646180157000000004") (PyInt 10000) (PyStr "payment") (PyStr "")
              eq_refl) as (Hsame & _ & _ & Hsends).
  split; [exact Hsame|].
  assert (valid_clabe "646180157000000004") as Hclabe.
  { unfold valid_clabe. cbn. split; [reflexivity|]. split.
    - repeat constructor.
    - eexists. split; reflexivity. }
  destruct (Hsends "646180157000000004" 10000 "payment" eq_refl eq_refl eq_refl Hclabe
              ltac:(lia)) as [-> _].
  vm_compute. reflexivity.
Defined.

(** * Further properties of [transfers.py] *)

(** ** Decimal strings and dates *)

Lemma string_app_nil (t : string) : "" +:+ t = t.
Proof. reflexivity. Qed.

Lemma string_app_cons (c : ascii) (s t : string) : String c s +:+ t = String c (s +:+ t).
Proof. reflexivity. Qed.

Lemma string_length_app (s t : string) :
  String.length (s +:+ t) = (String.length s + String.length t)%nat.
Proof.
  induction s as [|c s IH]; [reflexivity|].
  rewrite string_app_cons. cbn. f_equal. exact IH.
Qed.

(** Two concatenations with prefixes of the same length agree part by part. *)
Lemma string_app_inj (s1 s2 t1 t2 : string) :
  String.length s1 = String.length s2 ->
  s1 +:+ t1 = s2 +:+ t2 -> s1 = s2 /\ t1 = t2.
Proof.
  revert s2. induction s1 as [|c s1 IH]; intros [|c' s2];
    rewrite ?string_app_cons, ?string_app_nil; cbn; try discriminate.
  - auto.
  - intros [= Hlen] [= -> H]. destruct (IH _ Hlen H) as [-> ->]. auto.
Qed.

Lemma length_list_ascii_of_string (s : string) :
  length (list_ascii_of_string s) = String.length s.
Proof. induction s as [|c s IH]; cbn; [reflexivity | f_equal; exact IH]. Qed.

Lemma valid_clabe_length (s : string) : valid_clabe s -> String.length s = 18%nat.
Proof. intros (Hlen & _). by rewrite <- length_list_ascii_of_string. Qed.

Lemma zeros_length (n : nat) : String.length (zeros n) = n.
Proof. induction n as [|n IH]; cbn; [reflexivity | f_equal; exact IH]. Qed.

Lemma zfill_length (width : nat) (s : string) :
  (String.length s <= width)%nat -> String.length (zfill width s) = width.
Proof. intros H. unfold zfill. rewrite string_length_app, zeros_length. lia. Qed.

Lemma value_from_zeros (n : nat) (s : string) :
  value_from 0 (zeros n +:+ s) = value_from 0 s.
Proof.
  induction n as [|n IH]; [reflexivity|].
  cbn [zeros]. rewrite string_app_cons. exact IH.
Qed.

Lemma digit_value_pretty_N_char (r : N) :
  (r < 10)%N -> digit_value (pretty_N_char r) = N.to_nat r.
Proof.
  intros Hr.
  assert (r = 0 \/ r = 1 \/ r = 2 \/ r = 3 \/ r = 4 \/ r = 5 \/ r = 6 \/ r = 7
          \/ r = 8 \/ r = 9)%N as H by lia.
  repeat (destruct H as [->|H]; [reflexivity|]). subst r. reflexivity.
Qed.

(** Printing a number in front of a string and reading the result back gives
    the number followed by the string. *)
Lemma value_from_pretty_N_go (x : N) (s : string) :
  value_from 0 (pretty_N_go x s) = value_from (N.to_nat x) s.
Proof.
  revert s. induction (N.lt_wf_0 x) as [x _ IH]. intros s.
  assert (x = 0 \/ 0 < x)%N as [->|Hpos] by lia.
  - reflexivity.
  - rewrite pretty_N_go_step by exact Hpos.
    rewrite IH by (apply N.div_lt; lia). cbn [value_from].
    rewrite digit_value_pretty_N_char by (apply N.mod_lt; lia).
    f_equal. pose proof (N.div_mod x 10 ltac:(lia)). lia.
Qed.

Lemma decimal_value_pretty (n : nat) : decimal_value (pretty n) = n.
Proof.
  unfold decimal_value, pretty, pretty_nat, pretty, pretty_N.
  case_decide as Hn.
  - assert (n = 0)%nat as -> by lia. reflexivity.
  - rewrite value_from_pretty_N_go. cbn. apply Nat2N.id.
Qed.

Lemma decimal_value_zfill_pretty (width n : nat) :
  decimal_value (zfill width (pretty n)) = n.
Proof. unfold decimal_value, zfill. rewrite value_from_zeros. apply decimal_value_pretty. Qed.

Lemma pretty_N_go_length (k : nat) (x : N) (s : string) :
  (x < 10 ^ N.of_nat k)%N ->
  (String.length (pretty_N_go x s) <= k + String.length s)%nat.
Proof.
  revert x s. induction k as [|k IH]; intros x s Hx.
  - change (10 ^ N.of_nat 0)%N with 1%N in Hx.
    assert (x = 0)%N as -> by lia. rewrite pretty_N_go_0. lia.
  - assert (x = 0 \/ 0 < x)%N as [->|Hpos] by lia; [rewrite pretty_N_go_0; lia|].
    rewrite pretty_N_go_step by exact Hpos.
    etrans; [apply IH|cbn [String.length]; lia].
    apply N.Div0.div_lt_upper_bound.
    rewrite Nat2N.inj_succ, N.pow_succ_r' in Hx. exact Hx.
Qed.

Lemma pretty_nat_length (k n : nat) :
  (0 < k)%nat -> (N.of_nat n < 10 ^ N.of_nat k)%N ->
  (String.length (pretty n) <= k)%nat.
Proof.
  intros Hk Hn. unfold pretty, pretty_nat, pretty, pretty_N.
  case_decide; [cbn [String.length]; lia|].
  etrans; [apply (pretty_N_go_length k); exact Hn | cbn [String.length]; lia].
Qed.

Lemma date_str_parts (d : date) :
  valid_date d ->
  String.length (zfill 4 (pretty (year d))) = 4%nat
  /\ String.length (zfill 2 (pretty (month d))) = 2%nat
  /\ String.length (zfill 2 (pretty (day d))) = 2%nat.
Proof.
  intros (Hy & Hm & Hd).
  repeat split; apply zfill_length.
  - apply (pretty_nat_length 4); [lia|]. change (10 ^ N.of_nat 4)%N with 10000%N. lia.
  - apply (pretty_nat_length 2); [lia|]. change (10 ^ N.of_nat 2)%N with 100%N. lia.
  - apply (pretty_nat_length 2); [lia|]. change (10 ^ N.of_nat 2)%N with 100%N. lia.
Qed.

Lemma date_str_length (d : date) : valid_date d -> String.length (date_str d) = 10%nat.
Proof.
  intros Hd. destruct (date_str_parts d Hd) as (Hy & Hm & Hdd).
  unfold date_str. rewrite !string_length_app, Hy, Hm, Hdd. reflexivity.
Qed.

Lemma date_str_inj (d1 d2 : date) :
  valid_date d1 -> valid_date d2 -> date_str d1 = date_str d2 -> d1 = d2.
Proof.
  intros H1 H2 Heq.
  destruct (date_str_parts d1 H1) as (Hy1 & Hm1 & _).
  destruct (date_str_parts d2 H2) as (Hy2 & Hm2 & _).
  unfold date_str in Heq.
  apply string_app_inj in Heq as [Hy Heq]; [|congruence].
  rewrite ?string_app_cons, ?string_app_nil in Heq. injection Heq as Heq.
  apply string_app_inj in Heq as [Hm Heq]; [|congruence].
  rewrite ?string_app_cons, ?string_app_nil in Heq. injection Heq as Hd.
  apply (f_equal decimal_value) in Hy, Hm, Hd.
  rewrite !decimal_value_zfill_pretty in Hy, Hm, Hd.
  destruct d1, d2; cbn in *; congruence.
Qed.

(** A key determines the date, the account and the amount it was built from,
    as long as the dates are written on ten characters and the accounts have
    the same length. *)
Lemma expected_key_inj (d1 d2 : date) (a1 a2 : string) (z1 z2 : Z) :
  valid_date d1 -> valid_date d2 -> String.length a1 = String.length a2 ->
  expected_key d1 a1 (int_str z1) = expected_key d2 a2 (int_str z2) ->
  d1 = d2 /\ a1 = a2 /\ z1 = z2.
Proof.
  intros H1 H2 Hlen Heq. unfold expected_key in Heq.
  apply string_app_inj in Heq as [Hd Heq];
    [|rewrite !date_str_length by assumption; reflexivity].
  rewrite ?string_app_cons, ?string_app_nil in Heq. injection Heq as Heq.
  apply string_app_inj in Heq as [Ha Heq]; [|exact Hlen].
  rewrite ?string_app_cons, ?string_app_nil in Heq. injection Heq as Hz.
  repeat split.
  - apply date_str_inj; assumption.
  - exact Ha.
  - unfold int_str in Hz. apply (inj pretty). exact Hz.
Qed.

(** ** [Transfer.create], [TransferRequest] and the [Transfer] fields *)

Section FurtherProperties.
Context {RT : Runtime}.

Lemma py_not_nonempty (k : string) : k <> "" -> py_not (PyStr k) = false.
Proof.
  intros H. unfold py_not, py_bool.
  apply String.eqb_neq in H. rewrite H. reflexivity.
Qed.

Lemma gen_idempotency_key_eq (a m : pyval) (w : World) :
  _gen_idempotency_key a m w
  = (Ok (expected_key (datetime_date (utcnow w)) (py_str a) (py_str m)), w).
Proof. reflexivity. Qed.

Lemma StrictStr_validate_Some (v : pyval) (s : string) :
  StrictStr_validate v = Some s -> v = PyStr s.
Proof. destruct v; cbn; try discriminate. by intros [= ->]. Qed.

(** The typed members of a deserialized transfer are validated members of
    the keywords. *)
Lemma Transfer_init_fields (o : dict) (t : Transfer) :
  Transfer_init o = Ok t ->
  str_validator (default PyNone (o !! "account_number")) = Some (account_number t)
  /\ int_validator (default PyNone (o !! "amount")) = Some (amount t)
  /\ str_validator (default PyNone (o !! "descriptor")) = Some (descriptor t)
  /\ str_validator (default PyNone (o !! "idempotency_key")) = Some (idempotency_key t)
  /\ Optional str_validator (default PyNone (o !! "tracking_key")) = Some (tracking_key t).
Proof.
  unfold Transfer_init. case_bool_decide; cbn; [|discriminate].
  destruct (str_validator (default PyNone (o !! "id"))); [|discriminate].
  destruct (datetime_validator (default PyNone (o !! "created_at"))); [|discriminate].
  destruct (datetime_validator (default PyNone (o !! "updated_at"))); [|discriminate].
  destruct (str_validator (default PyNone (o !! "account_number"))); [|discriminate].
  destruct (int_validator (default PyNone (o !! "amount"))); [|discriminate].
  destruct (str_validator (default PyNone (o !! "descriptor"))); [|discriminate].
  destruct (str_validator (default PyNone (o !! "idempotency_key"))); [|discriminate].
  destruct (Status_validator (default PyNone (o !! "status"))); [|discriminate].
  destruct (Network_validator (default PyNone (o !! "network"))); [|discriminate].
  destruct (Optional str_validator (default PyNone (o !! "tracking_key"))); [|discriminate].
  intros [= <-]. repeat split.
Qed.

(** X1. For arguments that pass validation, [create] is exactly
    [Creatable.create] on the validated payload: nothing is caught, retried
    or processed after it. The key in the payload is the caller's when it is
    a non-empty string, and the generated one when the caller's is falsy. *)
Theorem create_delegates (w : World) (s : string) (z : Z) (ds : string)
    (k : pyval) (key : string) :
  valid_clabe s -> 0 < z ->
  (k = PyStr key /\ key <> "")
  \/ (py_bool k = false
      /\ key = expected_key (datetime_date (utcnow w)) s (int_str z)) ->
  create (PyStr s) (PyInt z) (PyStr ds) k w
  = Creatable_create "/transfers"
      {[ "account_number" := PyStr s; "amount" := PyInt z; "descriptor" := PyStr ds;
         "idempotency_key" := PyStr key ]} w.
Proof.
  intros Hs Hz Hk. rewrite create_eq.
  assert ((if py_not k
           then PyStr (expected_key (datetime_date (utcnow w))
                         (py_str (PyStr s)) (py_str (PyInt z)))
           else k) = PyStr key) as ->.
  { destruct Hk as [[-> Hne]|[Hf ->]].
    - rewrite py_not_nonempty by exact Hne. reflexivity.
    - unfold py_not. rewrite Hf. reflexivity. }
  rewrite (TransferRequest_init_valid s z ds key Hs Hz). reflexivity.
Qed.

(** X2. Whatever the arguments, a call sends at most one request, and a
    request it sends is a POST to [/transfers] whose body has exactly the
    four members of [TransferRequest]: the account number is the argument and
    a valid CLABE, the amount is the argument and a positive integer, the
    descriptor is the argument and a string, the key is a string. *)
Theorem create_request_shape (w : World) (a m d k : pyval) (rq : Request) :
  rq ∈ drop (length (sent w)) (sent (create a m d k w).2) ->
  drop (length (sent w)) (sent (create a m d k w).2) = [rq]
  /\ exists s z ds key,
       a = PyStr s /\ valid_clabe s /\ m = PyInt z /\ 0 < z /\ d = PyStr ds
       /\ rq = POST "/transfers"
                 {[ "account_number" := PyStr s; "amount" := PyInt z;
                    "descriptor" := PyStr ds; "idempotency_key" := PyStr key ]}.
Proof.
  rewrite create_eq.
  destruct (TransferRequest_init _ _ _ _) as [req|e] eqn:Hreq; cbn.
  - rewrite Creatable_create_sent, drop_app_length.
    intros Hin. apply list_elem_of_singleton in Hin. subst rq.
    split; [reflexivity|].
    apply TransferRequest_init_Ok in Hreq as (Ha & Hm & Hd & _).
    apply Clabe_validate_Some in Ha as [-> Hs].
    apply StrictPositiveInt_validate_Some in Hm as [-> Hz].
    apply StrictStr_validate_Some in Hd as ->.
    exists (req_account_number req), (req_amount req), (req_descriptor req),
      (req_idempotency_key req).
    split; [reflexivity|]. split; [exact Hs|]. split; [reflexivity|].
    split; [exact Hz|]. split; reflexivity.
  - rewrite drop_all. intros Hin. by apply not_elem_of_nil in Hin.
Qed.

(** X3. With a truthy key the clock is not consulted: on two processes that
    differ only in the time, the call returns the same result, sends the same
    requests and builds the same instances. *)
Theorem create_supplied_key_ignores_clock (w1 w2 : World) (a m d k : pyval) :
  py_bool k = true ->
  respond w1 = respond w2 -> sent w1 = sent w2 -> instances w1 = instances w2 ->
  (create a m d k w1).1 = (create a m d k w2).1
  /\ sent (create a m d k w1).2 = sent (create a m d k w2).2
  /\ instances (create a m d k w1).2 = instances (create a m d k w2).2.
Proof.
  intros Hk Hr Hs Hi. rewrite !create_eq. unfold py_not. rewrite Hk. cbn [negb].
  destruct (TransferRequest_init a m d k) as [req|e]; [|cbn; auto].
  rewrite !Creatable_create_eq. cbn zeta. rewrite Hr.
  destruct (respond w2 _) as [[o|items next]|e];
    [destruct (Transfer_init o)|..]; cbn; rewrite ?Hs, ?Hi; auto.
Qed.

(** X4. On valid dates and for valid account numbers, two generated keys are
    equal exactly when the UTC date, the account number and the amount are
    the same: the time of day never matters, and a different day, account or
    amount always gives a different key. *)
Theorem default_key_identifies (w1 w2 : World) (s1 s2 : string) (z1 z2 : Z) :
  valid_date (datetime_date (utcnow w1)) -> valid_date (datetime_date (utcnow w2)) ->
  valid_clabe s1 -> valid_clabe s2 ->
  (_gen_idempotency_key (PyStr s1) (PyInt z1) w1).1
   = (_gen_idempotency_key (PyStr s2) (PyInt z2) w2).1
  <-> datetime_date (utcnow w1) = datetime_date (utcnow w2) /\ s1 = s2 /\ z1 = z2.
Proof.
  intros Hd1 Hd2 Hs1 Hs2. rewrite !gen_idempotency_key_eq. cbn [fst py_str]. split.
  - intros [= Heq]. apply expected_key_inj in Heq; try assumption.
    rewrite !valid_clabe_length by assumption. reflexivity.
  - intros (-> & -> & ->). reflexivity.
Qed.

(** X5. The payload of a validated request has exactly the four members of
    the model, and building the model again from these members gives the same
    request: validation changes nothing that it has accepted. *)
Theorem TransferRequest_dict_roundtrip (a m d k : pyval) (req : TransferRequest) :
  TransferRequest_init a m d k = Ok req ->
  (forall name : string,
     name ∈ dom (TransferRequest_dict req)
     <-> name = "account_number" \/ name = "amount" \/ name = "descriptor"
         \/ name = "idempotency_key")
  /\ exists a' m' d' k',
       TransferRequest_dict req !! "account_number" = Some a'
       /\ TransferRequest_dict req !! "amount" = Some m'
       /\ TransferRequest_dict req !! "descriptor" = Some d'
       /\ TransferRequest_dict req !! "idempotency_key" = Some k'
       /\ TransferRequest_init a' m' d' k' = Ok req.
Proof.
  intros Hreq. split.
  - intros name. unfold TransferRequest_dict.
    rewrite !dom_insert_L, dom_singleton_L, !elem_of_union, !elem_of_singleton.
    tauto.
  - apply TransferRequest_init_Ok in Hreq as (Ha & Hm & _ & _).
    apply Clabe_validate_Some in Ha as [_ Hs].
    apply StrictPositiveInt_validate_Some in Hm as [_ Hz].
    exists (PyStr (req_account_number req)), (PyInt (req_amount req)),
      (PyStr (req_descriptor req)), (PyStr (req_idempotency_key req)).
    unfold TransferRequest_dict.
    repeat (split; [by simplify_map_eq|]).
    rewrite (TransferRequest_init_valid _ _ _ _ Hs Hz). by destruct req.
Qed.

(** X6. [tracking_key] defaults to [None]: keywords without it build the same
    transfer as the keywords with [tracking_key=None], and the transfer built
    has no tracking key. *)
Theorem Transfer_init_tracking_key_default (o : dict) :
  o !! "tracking_key" = None ->
  Transfer_init (<["tracking_key" := PyNone]> o) = Transfer_init o
  /\ forall t, Transfer_init o = Ok t -> tracking_key t = None.
Proof.
  intros Hno. split.
  - unfold Transfer_init.
    assert (bool_decide (dom (<["tracking_key" := PyNone]> o)
                           ⊆ Transfer_required ∪ {["tracking_key"]}
                         ∧ Transfer_required ⊆ dom (<["tracking_key" := PyNone]> o))
            = bool_decide (dom o ⊆ Transfer_required ∪ {["tracking_key"]}
                           ∧ Transfer_required ⊆ dom o)) as ->.
    { apply bool_decide_ext. rewrite dom_insert_L.
      assert ("tracking_key" ∉ Transfer_required) as Hfresh.
      { unfold Transfer_required.
        rewrite !elem_of_union, !elem_of_singleton. intros H.
        repeat (destruct H as [H|H]; try discriminate). }
      revert Hfresh. generalize Transfer_required (dom o). intros R D Hfresh.
      rewrite !elem_of_subseteq. split.
      - intros [H1 H2]. split.
        + intros x Hx. apply H1, elem_of_union. by right.
        + intros x Hx. pose proof (H2 x Hx) as Hx'.
          apply elem_of_union in Hx' as [Htk|HD]; [|exact HD].
          apply elem_of_singleton in Htk. by subst x.
      - intros [H1 H2]. split.
        + intros x Hx. apply elem_of_union in Hx as [Htk|HD]; [|by apply H1].
          apply elem_of_singleton in Htk. subst x.
          apply elem_of_union. right. by apply elem_of_singleton.
        + intros x Hx. apply elem_of_union. right. by apply H2. }
    rewrite !lookup_insert_ne by discriminate.
    rewrite lookup_insert_eq, Hno. reflexivity.
  - intros t Ht. apply Transfer_init_fields in Ht as (_ & _ & _ & _ & Htk).
    rewrite Hno in Htk. cbn in Htk. congruence.
Qed.

(** X7. When the server echoes the payload in a well-formed answer, the
    transfer that [create] returns carries the account number, the amount,
    the descriptor and the idempotency key the caller passed. *)
Theorem create_echo_roundtrip (w : World) (s : string) (z : Z) (ds key : string)
    (o : dict) :
  let body : dict :=
    {[ "account_number" := PyStr s; "amount" := PyInt z; "descriptor" := PyStr ds;
       "idempotency_key" := PyStr key ]} in
  valid_clabe s -> 0 < z -> key <> "" ->
  respond w (POST "/transfers" body) = Ok (JsonObject o) ->
  body ⊆ o ->
  (exists t, Transfer_init o = Ok t) ->
  exists r t,
    (create (PyStr s) (PyInt z) (PyStr ds) (PyStr key) w).1 = Ok r
    /\ instances (create (PyStr s) (PyInt z) (PyStr ds) (PyStr key) w).2 !! r = Some t
    /\ account_number t = s /\ amount t = z /\ descriptor t = ds
    /\ idempotency_key t = key.
Proof.
  intros body Hs Hz Hk Hresp Hecho (t & Ht).
  rewrite create_eq, py_not_nonempty by exact Hk.
  rewrite (TransferRequest_init_valid s z ds key Hs Hz).
  rewrite Creatable_create_eq. cbn zeta.
  change (TransferRequest_dict _) with body. unfold _endpoint.
  rewrite Hresp, Ht. cbn.
  exists (length (instances w)), t. split; [reflexivity|]. split.
  { rewrite lookup_app_r, Nat.sub_diag by reflexivity. reflexivity. }
  apply Transfer_init_fields in Ht as (Ha & Hm & Hd & Hkey & _).
  assert (forall name v, body !! name = Some v -> o !! name = Some v) as Hlook.
  { intros name v Hv. eapply lookup_weaken; eassumption. }
  rewrite (Hlook "account_number" (PyStr s)) in Ha by (unfold body; by simplify_map_eq).
  rewrite (Hlook "amount" (PyInt z)) in Hm by (unfold body; by simplify_map_eq).
  rewrite (Hlook "descriptor" (PyStr ds)) in Hd by (unfold body; by simplify_map_eq).
  rewrite (Hlook "idempotency_key" (PyStr key)) in Hkey by (unfold body; by simplify_map_eq).
  cbn in Ha, Hm, Hd, Hkey.
  rewrite str_validator_str in Ha, Hd, Hkey. rewrite int_validator_int in Hm.
  repeat split; congruence.
Qed.

End FurtherProperties.

(** ** The further properties at concrete inputs *)

Lemma mock_clabe_valid : valid_clabe "646180157000000004".
Proof.
  unfold valid_clabe. cbn. split; [reflexivity|]. split.
  - repeat constructor.
  - eexists. split; reflexivity.
Defined.

Lemma mock_dates_valid :
  valid_date (datetime_date (utcnow morning))
  /\ valid_date (datetime_date (utcnow evening))
  /\ valid_date (datetime_date (utcnow next_morning)).
Proof. unfold valid_date. cbn. lia. Defined.

Lemma create_delegates_witness :
  create (RT := mock_runtime) (PyStr "646180157000000004") (PyInt 10000)
         (PyStr "payment") (PyStr "order-123") morning
  = Creatable_create (RT := mock_runtime) "/transfers" mock_payload morning
  /\ create (RT := mock_runtime) (PyStr "646180157000000004") (PyInt 10000)
            (PyStr "payment") (PyInt 0) morning
     = Creatable_create (RT := mock_runtime) "/transfers"
         {[ "account_number" := PyStr "646180157000000004"; "amount" := PyInt 10000;
            "descriptor" := PyStr "payment";
            "idempotency_key" := PyStr "2020-05-01:646180157000000004:10000" ]}
         morning.
Proof.
  split.
  - apply (create_delegates (RT := mock_runtime) morning "646180157000000004" 10000
             "payment" (PyStr "order-123") "order-123" mock_clabe_valid).
    + lia.
    + left. split; [reflexivity | discriminate].
  - apply (create_delegates (RT := mock_runtime) morning "646180157000000004" 10000
             "payment" (PyInt 0) "2020-05-01:646180157000000004:10000"
             mock_clabe_valid).
    + lia.
    + right. split; [reflexivity | vm_compute; reflexivity].
Defined.

Lemma create_request_shape_witness :
  drop (length (sent evening))
       (sent (create (RT := mock_runtime) (PyStr "646180157000000004") (PyInt 10000)
                     (PyStr "payment") (PyStr "order-123") evening).2)
  = [POST "/transfers" mock_payload].
Proof.
  apply (create_request_shape (RT := mock_runtime) evening
           (PyStr "646180157000000004") (PyInt 10000) (PyStr "payment")
           (PyStr "order-123") (POST "/transfers" mock_payload)).
  vm_compute. apply list_elem_of_here.
Defined.

Lemma create_supplied_key_ignores_clock_witness :
  (create (RT := mock_runtime) (PyStr "646180157000000004") (PyInt 10000)
          (PyStr "payment") (PyStr "order-123") morning).1
  = (create (RT := mock_runtime) (PyStr "646180157000000004") (PyInt 10000)
            (PyStr "payment") (PyStr "order-123") next_morning).1
  /\ sent (create (RT := mock_runtime) (PyStr "646180157000000004") (PyInt 10000)
                  (PyStr "payment") (PyStr "order-123") morning).2
     = sent (create (RT := mock_runtime) (PyStr "646180157000000004") (PyInt 10000)
                    (PyStr "payment") (PyStr "order-123") next_morning).2
  /\ instances
       (create (RT := mock_runtime) (PyStr "646180157000000004") (PyInt 10000)
               (PyStr "payment") (PyStr "order-123") morning).2
     = instances
         (create (RT := mock_runtime) (PyStr "646180157000000004") (PyInt 10000)
                 (PyStr "payment") (PyStr "order-123") next_morning).2.
Proof.
  apply (create_supplied_key_ignores_clock (RT := mock_runtime) morning next_morning);
    reflexivity.
Defined.

Lemma default_key_identifies_witness :
  (_gen_idempotency_key (RT := mock_runtime)
     (PyStr "646180157000000004") (PyInt 10000) morning).1
  = (_gen_idempotency_key (RT := mock_runtime)
       (PyStr "646180157000000004") (PyInt 10000) evening).1
  /\ (_gen_idempotency_key (RT := mock_runtime)
        (PyStr "646180157000000004") (PyInt 10000) morning).1
     <> (_gen_idempotency_key (RT := mock_runtime)
          (PyStr "646180157000000004") (PyInt 10000) next_morning).1.
Proof.
  destruct mock_dates_valid as (Hm & He & Hn). split.
  - apply (default_key_identifies (RT := mock_runtime) morning evening
             "646180157000000004" "646180157000000004" 10000 10000
             Hm He mock_clabe_valid mock_clabe_valid).
    repeat split.
  - intros Heq.
    apply (default_key_identifies (RT := mock_runtime) morning next_morning
             "646180157000000004" "646180157000000004" 10000 10000
             Hm Hn mock_clabe_valid mock_clabe_valid) in Heq.
    destruct Heq as [Hday _]. discriminate Hday.
Defined.

Lemma TransferRequest_dict_roundtrip_witness :
  exists a' m' d' k',
    mock_payload !! "account_number" = Some a'
    /\ mock_payload !! "amount" = Some m'
    /\ mock_payload !! "descriptor" = Some d'
    /\ mock_payload !! "idempotency_key" = Some k'
    /\ TransferRequest_init (RT := mock_runtime) a' m' d' k'
       = Ok {| req_account_number := "646180157000000004"; req_amount := 10000;
               req_descriptor := "payment"; req_idempotency_key := "order-123" |}.
Proof.
  apply (TransferRequest_dict_roundtrip (RT := mock_runtime)
           (PyStr "646180157000000004") (PyInt 10000) (PyStr "payment")
           (PyStr "order-123")
           {| req_account_number := "646180157000000004"; req_amount := 10000;
              req_descriptor := "payment"; req_idempotency_key := "order-123" |}).
  vm_compute. reflexivity.
Defined.

Lemma Transfer_init_tracking_key_default_witness :
  Transfer_init (RT := mock_runtime) (<["tracking_key" := PyNone]> mock_answer)
  = Transfer_init (RT := mock_runtime) mock_answer.
Proof.
  apply (Transfer_init_tracking_key_default (RT := mock_runtime) mock_answer).
  vm_compute. reflexivity.
Defined.

Lemma create_echo_roundtrip_witness :
  exists r t,
    (create (RT := mock_runtime) (PyStr "646180157000000004") (PyInt 10000)
            (PyStr "payment") (PyStr "order-123") morning).1 = Ok r
    /\ instances
         (create (RT := mock_runtime) (PyStr "646180157000000004") (PyInt 10000)
                 (PyStr "payment") (PyStr "order-123") morning).2 !! r = Some t
    /\ account_number t = "646180157000000004" /\ amount t = 10000
    /\ descriptor t = "payment" /\ idempotency_key t = "order-123".
Proof.
  apply (create_echo_roundtrip (RT := mock_runtime) morning "646180157000000004" 10000
           "payment" "order-123" mock_answer mock_clabe_valid).
  - lia.
  - discriminate.
  - reflexivity.
  - apply map_union_subseteq_l.
  - eexists. vm_compute. reflexivity.
Defined.
